(** * Bank of Henzo: the ledger core of [server.js]

    A shallow embedding of the request handlers of [server.js] that read and
    write the two data files ([users.json], [transactions.json]), and the
    properties of the ledger they implement.

    Modelling conventions.
    - The persistent state is the content of the two files.  Every handler
      re-reads the files ([readData]), works on its own in-memory copy and
      writes whole collections back ([writeData]); the in-memory copy dies
      with the request, so what later requests observe is the file content.
      The handlers are synchronous: requests are served one after the other.
    - A JavaScript number is an IEEE 754 binary64 value, with the arithmetic
      and comparisons of the standard library's [SpecFloat] at precision 53.
      Balances and amounts are JSON values: [null], a boolean, a number or a
      string (arrays and objects are left out), and the operators [!], [<],
      [<=], [-], [+] coerce them as the language does.  The two conversions
      between strings and numbers and the string parser of
      [Number.parseFloat] are functions of the language that the model does
      not spell out; they are supplied with the environment, and every
      statement about all environments holds for the real ones.
    - Identifiers, names, e-mail addresses and codes are strings; the empty
      string is the falsy string and stands for a missing field in [!x].
    - What the file holds after [JSON.stringify] and [JSON.parse] differs
      from the value in memory for a number that is [NaN] or infinite (it
      comes back as [null]) or a negative zero (it comes back as [0]).
      Entries that a handler reads and writes back untouched come back as
      they were.
    - What the handler cannot control is supplied by an environment record:
      the identifier drawn by [uuidv4()], the clock, the numbers drawn by
      [generateAccountNumber] and whether each [fs.writeFileSync] succeeds.
      A failed write leaves the file as it was.  A failed read makes
      [readData] return the empty array; the environment says whether each
      read succeeds in the three handlers where a write can follow a failed
      read (registration, transfer, funding).  In the delete handler and in
      the read-only routes a failed read can only lead to a refusal or an
      empty answer, and the files are taken as read. *)

From Stdlib Require Import ZArith QArith Lia Lqa.
From Stdlib Require Import Floats.SpecFloat.
From stdpp Require Import base decidable option list strings pretty.

Local Open Scope string_scope.
Local Open Scope list_scope.
Local Open Scope Z_scope.

(** ** JavaScript values *)

(** A number: a binary64 value. *)
Definition number : Type := spec_float.

Definition num_add : number → number → number := SFadd 53 1024.
Definition num_sub : number → number → number := SFsub 53 1024.
Definition num_ltb : number → number → bool := SFltb.
Definition num_leb : number → number → bool := SFleb.

(** The number denoted by an integer literal. *)
Definition of_Z (z : Z) : number := binary_normalize 53 1024 z 0 false.

Definition NaN : number := S754_nan.

(** A JSON value in a balance or an amount. *)
Inductive jsval :=
  | JNull
  | JBool (b : bool)
  | JNum (x : number)
  | JStr (s : string).

(** The conversions of the language between strings and numbers. *)
Record conversions := mkConversions {
  StringToNumber : string → number;    (* [Number(s)] *)
  NumberToString : number → string;    (* [String(x)] *)
  StringParseFloat : string → number   (* [Number.parseFloat(s)] *)
}.

(** [!!v] *)
Definition truthy (v : jsval) : bool :=
  match v with
  | JNull => false
  | JBool b => b
  | JNum (S754_zero _) | JNum S754_nan => false
  | JNum _ => true
  | JStr s => negb (bool_decide (s = EmptyString))
  end.

Definition ToNumber (c : conversions) (v : jsval) : number :=
  match v with
  | JNull => of_Z 0
  | JBool true => of_Z 1
  | JBool false => of_Z 0
  | JNum x => x
  | JStr s => StringToNumber c s
  end.

Definition ToString (c : conversions) (v : jsval) : string :=
  match v with
  | JNull => "null"
  | JBool true => "true"
  | JBool false => "false"
  | JNum x => NumberToString c x
  | JStr s => s
  end.

(** [a < b]: two strings are compared as strings, anything else as
    numbers; a comparison with [NaN] is false. *)
Definition js_lt (c : conversions) (a b : jsval) : bool :=
  match a, b with
  | JStr s, JStr t => String.ltb s t
  | _, _ => num_ltb (ToNumber c a) (ToNumber c b)
  end.

(** [a <= b] *)
Definition js_le (c : conversions) (a b : jsval) : bool :=
  match a, b with
  | JStr s, JStr t => negb (String.ltb t s)
  | _, _ => num_leb (ToNumber c a) (ToNumber c b)
  end.

(** [a - b] *)
Definition js_sub (c : conversions) (a b : jsval) : jsval :=
  JNum (num_sub (ToNumber c a) (ToNumber c b)).

(** [a + b]: concatenation as soon as one side is a string. *)
Definition js_add (c : conversions) (a b : jsval) : jsval :=
  match a, b with
  | JStr _, _ | _, JStr _ => JStr (ToString c a +:+ ToString c b)
  | _, _ => JNum (num_add (ToNumber c a) (ToNumber c b))
  end.

(** [Number.parseFloat(v)]: the value is turned into a string and the
    string is parsed.  A number comes back as itself (a negative zero as
    [0]); "null", "true" and "false" do not start with a number. *)
Definition parseFloat (c : conversions) (v : jsval) : number :=
  match v with
  | JNum (S754_zero _) => S754_zero false
  | JNum x => x
  | JStr s => StringParseFloat c s
  | JNull | JBool _ => NaN
  end.

(** The value that [JSON.parse] gives back for what [JSON.stringify] writes. *)
Definition stored (v : jsval) : jsval :=
  match v with
  | JNum (S754_zero _) => JNum (S754_zero false)
  | JNum (S754_finite _ _ _) => v
  | JNum _ => JNull
  | _ => v
  end.

(** ** Data model *)

(** An element of [users.json]. *)
Module User.
Record t := mk {
  id : string;
  name : string;
  email : string;
  password : string;
  role : string;
  accountNumber : string;
  balance : jsval;
  currency : string;
  status : string;
  createdAt : string
}.

(** [u.balance = b], every other field kept. *)
Definition set_balance (b : jsval) (u : t) : t :=
  mk (id u) (name u) (email u) (password u) (role u) (accountNumber u)
     b (currency u) (status u) (createdAt u).

(** [u.status = v], every other field kept. *)
Definition set_status (v : string) (u : t) : t :=
  mk (id u) (name u) (email u) (password u) (role u) (accountNumber u)
     (balance u) (currency u) v (createdAt u).
End User.

(** [const { password, ...user } = u]: the projection sent to clients. *)
Module PublicUser.
Record t := mk {
  id : string;
  name : string;
  email : string;
  role : string;
  accountNumber : string;
  balance : jsval;
  currency : string;
  status : string;
  createdAt : string
}.
End PublicUser.

Definition withoutPassword (u : User.t) : PublicUser.t :=
  PublicUser.mk (User.id u) (User.name u) (User.email u) (User.role u)
    (User.accountNumber u) (User.balance u) (User.currency u)
    (User.status u) (User.createdAt u).

(** An element of [transactions.json].  The two handlers that append to the
    log build objects with different field sets; a field an object does not
    have is [None]. *)
Module Tx.
Record t := mk {
  id : string;
  type : string;
  senderId : option string;
  senderName : option string;
  senderEmail : option string;
  senderAccountNumber : option string;
  adminId : option string;
  adminName : option string;
  recipientId : string;
  recipientName : string;
  recipientEmail : string;
  recipientAccountNumber : string;
  amount : jsval;
  currency : string;
  note : option string;
  status : string;
  createdAt : string
}.

Definition set_amount (a : jsval) (x : t) : t :=
  mk (id x) (type x) (senderId x) (senderName x) (senderEmail x)
     (senderAccountNumber x) (adminId x) (adminName x) (recipientId x)
     (recipientName x) (recipientEmail x) (recipientAccountNumber x)
     a (currency x) (note x) (status x) (createdAt x).
End Tx.

(** An account and a transaction as they come back from the file. *)
Definition stored_user (u : User.t) : User.t :=
  User.set_balance (stored (User.balance u)) u.

Definition stored_tx (x : Tx.t) : Tx.t :=
  Tx.set_amount (stored (Tx.amount x)) x.

(** The content of the two data files. *)
Record state := mkState {
  users : list User.t;
  transactions : list Tx.t
}.

(** ** Requests, environment, responses *)

Module RegisterReq.
Record t := mk {
  firstName : string;
  lastName : string;
  email : string;
  password : string
}.
End RegisterReq.

Module SendReq.
Record t := mk {
  senderId : string;
  recipientAccountNumber : string;
  amount : jsval;
  note : option string;
  transactionCode : string
}.
End SendReq.

Module FundReq.
Record t := mk {
  adminId : string;
  accountNumber : string;
  amount : jsval;
  note : option string
}.
End FundReq.

(** What a handler gets from outside during one request. *)
Record env := mkEnv {
  uuid : string;              (* the result of [uuidv4()] *)
  now : string;               (* [new Date().toISOString()] *)
  draws : list Z;             (* successive values of
                                 [Math.floor(1000000000 + Math.random() * 9000000000)] *)
  users_write_ok : bool;      (* does [writeData(USERS_FILE, ..)] succeed *)
  transactions_write_ok : bool; (* does [writeData(TRANSACTIONS_FILE, ..)] succeed *)
  users_read_ok : bool;       (* does [readData(USERS_FILE)] read the file *)
  transactions_read_ok : bool; (* does [readData(TRANSACTIONS_FILE)] read the file *)
  js : conversions            (* the conversions of the language *)
}.

(** The JSON body of a response. *)
Inductive body :=
  | Failure (message : string)          (* { success: false, message } *)
  | Done (message : string)             (* { success: true, message } *)
  | UserBody (user : PublicUser.t)      (* { success: true, user } *)
  | TxBody (transaction : Tx.t).        (* { success: true, transaction } *)

Record response := mkResponse {
  http_status : Z;
  json : body
}.

Definition success (r : response) : bool :=
  match json r with
  | Failure _ => false
  | _ => true
  end.

(** ** Helpers of [server.js] *)

(** [!s] for a string. *)
Definition falsy (s : string) : bool := bool_decide (s = EmptyString).

(** [users.find(p)] and [users.findIndex(p)]: the first element satisfying
    [p], with its index. *)
Definition find {A} (P : A → Prop) `{!∀ x, Decision (P x)} (l : list A)
  : option (nat * A) := list_find P l.

(** [users.some(p)]. *)
Definition some {A} (P : A → Prop) `{!∀ x, Decision (P x)} (l : list A) : bool :=
  bool_decide (Exists P l).

(** [generateAccountNumber()], as a function of the integer drawn. *)
Definition generateAccountNumber (n : Z) : string := pretty n.

(** [readData(file)]: the parsed content, or [[]] when reading fails. *)
Definition readData {A} (ok : bool) (content : list A) : list A :=
  if ok then content else [].

Definition read_users (e : env) (st : state) : list User.t :=
  readData (users_read_ok e) (users st).

Definition read_transactions (e : env) (st : state) : list Tx.t :=
  readData (transactions_read_ok e) (transactions st).

(** The file content written at first start. *)
Definition seed_admin (created : string) : User.t :=
  User.mk "admin-1" "Admin User" "admin@example.com" "admin123" "admin"
    "9876543210" (JNum (of_Z 500000000)) "USD" "active" created.

Definition seed (created : string) : state :=
  mkState [seed_admin created] [].

(** ** POST /api/auth/register *)

(** The [do .. while] loop: draw until the number is used by no account.
    [None] when every draw collides, that is, the loop has not left yet. *)
Fixpoint allocate (us : list User.t) (ds : list Z) : option string :=
  match ds with
  | [] => None
  | n :: ds' =>
      let accountNumber := generateAccountNumber n in
      if some (λ u, User.accountNumber u = accountNumber) us
      then allocate us ds'
      else Some accountNumber
  end.

Definition newUser (rq : RegisterReq.t) (accountNumber : string) (e : env) : User.t :=
  User.mk ("user-" +:+ uuid e)
    (RegisterReq.firstName rq +:+ " " +:+ RegisterReq.lastName rq)
    (RegisterReq.email rq) (RegisterReq.password rq) "user" accountNumber
    (JNum (of_Z 0)) "USD" "active" (now e).

Definition register (st : state) (rq : RegisterReq.t) (e : env)
  : option (response * state) :=
  if falsy (RegisterReq.firstName rq) || falsy (RegisterReq.lastName rq)
     || falsy (RegisterReq.email rq) || falsy (RegisterReq.password rq)
  then Some (mkResponse 400 (Failure "All fields are required"), st)
  else
    let users := read_users e st in
    if some (λ u, User.email u = RegisterReq.email rq) users
    then Some (mkResponse 400 (Failure "Email already in use"), st)
    else
      match allocate users (draws e) with
      | None => None
      | Some accountNumber =>
          let nu := newUser rq accountNumber e in
          if users_write_ok e
          then Some (mkResponse 201 (UserBody (withoutPassword nu)),
                     mkState (users ++ [nu]) (transactions st))
          else Some (mkResponse 500 (Failure "Failed to create user"), st)
      end.

(** ** DELETE /api/users/:id *)

Definition deleteUser (st : state) (id : string) (e : env) : response * state :=
  match find (λ u, User.id u = id) (users st) with
  | None => (mkResponse 404 (Failure "User not found"), st)
  | Some (userIndex, u) =>
      if bool_decide (User.role u = "admin")
      then (mkResponse 403 (Failure "Cannot delete admin user"), st)
      else if users_write_ok e
      then (mkResponse 200 (Done "User deleted successfully"),
            mkState (delete userIndex (users st)) (transactions st))
      else (mkResponse 500 (Failure "Failed to delete user"), st)
  end.

(** ** POST /api/transactions/send *)

(** [!amount || amount <= 0] *)
Definition bad_amount (c : conversions) (amount : jsval) : bool :=
  negb (truthy amount) || js_le c amount (JNum (of_Z 0)).

(** [u.balance -= amount] and [u.balance += amount]. *)
Definition debit (c : conversions) (amount : jsval) (u : User.t) : User.t :=
  User.set_balance (js_sub c (User.balance u) amount) u.

Definition credit (c : conversions) (amount : jsval) (u : User.t) : User.t :=
  User.set_balance (js_add c (User.balance u) amount) u.

(** The transaction object of the transfer.  It is built after the balance
    updates, from fields of [sender] and [recipient] that the updates do not
    touch. *)
Definition transferTx (rq : SendReq.t) (sender recipient : User.t) (e : env) : Tx.t :=
  Tx.mk ("tx-" +:+ uuid e) "transfer"
    (Some (SendReq.senderId rq)) (Some (User.name sender))
    (Some (User.email sender)) (Some (User.accountNumber sender))
    None None
    (User.id recipient) (User.name recipient) (User.email recipient)
    (SendReq.recipientAccountNumber rq)
    (SendReq.amount rq) (User.currency sender) (SendReq.note rq)
    "completed" (now e).

(** The array [users] after the two balance updates, in memory.  [sender]
    and [recipient] are references into the array: the two updates act on it
    by position, the second on the result of the first, and hit the same
    object when both references are the same. *)
Definition transfer_memory (c : conversions) (amount : jsval) (i j : nat)
    (us : list User.t) : list User.t :=
  alter (credit c amount) j (alter (debit c amount) i us).

(** The same array as it comes back from the file: the two entries that were
    updated go through [JSON.stringify]. *)
Definition transfer_file (c : conversions) (amount : jsval) (i j : nat)
    (us : list User.t) : list User.t :=
  alter stored_user j (alter stored_user i (transfer_memory c amount i j us)).

Definition send (st : state) (rq : SendReq.t) (e : env) : response * state :=
  let amount := SendReq.amount rq in
  if falsy (SendReq.senderId rq) || falsy (SendReq.recipientAccountNumber rq)
     || bad_amount (js e) amount
  then (mkResponse 400 (Failure "Invalid transaction data"), st)
  else if bool_decide (SendReq.transactionCode rq ≠ "45242769012")
  then (mkResponse 400 (Failure "Invalid transaction code"), st)
  else
    let users := read_users e st in
    match find (λ u, User.id u = SendReq.senderId rq) users,
          find (λ u, User.accountNumber u = SendReq.recipientAccountNumber rq) users
    with
    | None, _ => (mkResponse 404 (Failure "Sender not found"), st)
    | Some _, None => (mkResponse 404 (Failure "Recipient account not found"), st)
    | Some (i, sender), Some (j, recipient) =>
        if js_lt (js e) (User.balance sender) amount
        then (mkResponse 400 (Failure "Insufficient funds"), st)
        else
          let users' := transfer_file (js e) amount i j users in
          let transaction := stored_tx (transferTx rq sender recipient e) in
          let transactions' := read_transactions e st ++ [transaction] in
          if users_write_ok e
          then if transactions_write_ok e
               then (mkResponse 200 (TxBody transaction), mkState users' transactions')
               else (mkResponse 500 (Failure "Failed to process transaction"),
                     mkState users' (transactions st))
          else (mkResponse 500 (Failure "Failed to process transaction"), st)
    end.

(** ** POST /api/admin/fund-user *)

(** [note || "Admin funding"]. *)
Definition noteOrDefault (note : option string) : string :=
  match note with
  | Some n => if falsy n then "Admin funding" else n
  | None => "Admin funding"
  end.

Definition fundTx (rq : FundReq.t) (admin user : User.t) (e : env) : Tx.t :=
  Tx.mk ("tx-" +:+ uuid e) "admin-fund"
    None None None None
    (Some (FundReq.adminId rq)) (Some (User.name admin))
    (User.id user) (User.name user) (User.email user)
    (FundReq.accountNumber rq)
    (JNum (parseFloat (js e) (FundReq.amount rq))) (User.currency user)
    (Some (noteOrDefault (FundReq.note rq)))
    "completed" (now e).

(** The accounts array after [user.balance += Number.parseFloat(amount)], as
    it comes back from the file. *)
Definition fund_file (c : conversions) (amount : jsval) (j : nat)
    (us : list User.t) : list User.t :=
  alter stored_user j (alter (credit c (JNum (parseFloat c amount))) j us).

Definition fund (st : state) (rq : FundReq.t) (e : env) : response * state :=
  let amount := FundReq.amount rq in
  if falsy (FundReq.adminId rq) || falsy (FundReq.accountNumber rq)
     || bad_amount (js e) amount
  then (mkResponse 400 (Failure "Invalid data"), st)
  else
    let users := read_users e st in
    match find (λ u, User.id u = FundReq.adminId rq ∧ User.role u = "admin") users,
          find (λ u, User.accountNumber u = FundReq.accountNumber rq) users
    with
    | None, _ => (mkResponse 403 (Failure "Unauthorized"), st)
    | Some _, None => (mkResponse 404 (Failure "User account not found"), st)
    | Some (_, admin), Some (j, user) =>
        let users' := fund_file (js e) amount j users in
        let transaction := stored_tx (fundTx rq admin user e) in
        let transactions' := read_transactions e st ++ [transaction] in
        if users_write_ok e
        then if transactions_write_ok e
             then (mkResponse 200 (TxBody transaction), mkState users' transactions')
             else (mkResponse 500 (Failure "Failed to fund user"),
                   mkState users' (transactions st))
        else (mkResponse 500 (Failure "Failed to fund user"), st)
    end.

(** ** Read-only routes *)

(** The answer of a route that returns a collection: either a refusal or
    [{ success: true, users }] / [{ success: true, transactions }], sent
    with status 200. *)
Inductive listing (A : Type) :=
  | Refused (http_status : Z) (message : string)
  | Listed (items : list A).
Arguments Refused {A} _ _.
Arguments Listed {A} _.

(** POST /api/auth/login *)
Definition login (st : state) (email password : string) : response :=
  if falsy email || falsy password
  then mkResponse 400 (Failure "Email and password are required")
  else
    match find (λ u, User.email u = email ∧ User.password u = password) (users st) with
    | None => mkResponse 401 (Failure "Invalid credentials")
    | Some (_, user) => mkResponse 200 (UserBody (withoutPassword user))
    end.





(** GET /api/admin/transactions *)
Definition getAdminTransactions (st : state) : listing Tx.t :=
  Listed (transactions st).

(** ** Reachable file contents *)

Inductive step : state → state → Prop :=
  | step_register st rq e r st' :
      register st rq e = Some (r, st') → step st st'
  | step_delete st id e r st' :
      deleteUser st id e = (r, st') → step st st'
  | step_send st rq e r st' :
      send st rq e = (r, st') → step st st'
  | step_fund st rq e r st' :
      fund st rq e = (r, st') → step st st'.

Inductive reachable : state → Prop :=
  | reachable_seed created : reachable (seed created)
  | reachable_step st st' : reachable st → step st st' → reachable st'.

(** One request served while [transactions.json] can be read. *)
Inductive log_read_step : state → state → Prop :=
  | log_read_register st rq e r st' :
      register st rq e = Some (r, st') → log_read_step st st'
  | log_read_delete st id e r st' :
      deleteUser st id e = (r, st') → log_read_step st st'
  | log_read_send st rq e r st' :
      transactions_read_ok e = true →
      send st rq e = (r, st') → log_read_step st st'
  | log_read_fund st rq e r st' :
      transactions_read_ok e = true →
      fund st rq e = (r, st') → log_read_step st st'.

(** Any number of such requests, one after the other. *)
Inductive log_read_steps : state → state → Prop :=
  | log_read_refl st : log_read_steps st st
  | log_read_more st st' st'' :
      log_read_steps st st' → log_read_step st' st'' → log_read_steps st st''.

(** ** Runs of the two ledger operations *)

(** A transfer that got as far as the balance updates. *)
Record transfer_run (st : state) (rq : SendReq.t) (e : env) (i j : nat)
    (s r : User.t) : Prop := {
  run_valid : SendReq.senderId rq ≠ EmptyString
              ∧ SendReq.recipientAccountNumber rq ≠ EmptyString;
  run_amount : bad_amount (js e) (SendReq.amount rq) = false;
  run_code : SendReq.transactionCode rq = "45242769012";
  run_sender :
    find (λ u, User.id u = SendReq.senderId rq) (read_users e st) = Some (i, s);
  run_recipient :
    find (λ u, User.accountNumber u = SendReq.recipientAccountNumber rq)
         (read_users e st)
    = Some (j, r);
  run_funds : js_lt (js e) (User.balance s) (SendReq.amount rq) = false
}.

(** A funding that got as far as the balance update. *)
Record fund_run (st : state) (rq : FundReq.t) (e : env) (j : nat)
    (admin user : User.t) : Prop := {
  frun_valid : FundReq.adminId rq ≠ EmptyString
               ∧ FundReq.accountNumber rq ≠ EmptyString;
  frun_amount : bad_amount (js e) (FundReq.amount rq) = false;
  frun_admin :
    ∃ k, find (λ u, User.id u = FundReq.adminId rq ∧ User.role u = "admin")
              (read_users e st)
         = Some (k, admin);
  frun_user :
    find (λ u, User.accountNumber u = FundReq.accountNumber rq) (read_users e st)
    = Some (j, user)
}.

(** [u'] is [u] up to the balance. *)
Definition same_but_balance (u u' : User.t) : Prop :=
  User.id u' = User.id u ∧ User.name u' = User.name u
  ∧ User.email u' = User.email u ∧ User.password u' = User.password u
  ∧ User.role u' = User.role u ∧ User.accountNumber u' = User.accountNumber u
  ∧ User.currency u' = User.currency u ∧ User.status u' = User.status u
  ∧ User.createdAt u' = User.createdAt u.

(** The accounts file with every status [v] rewritten to [g v]. *)
Definition restatus (g : string → string) (u : User.t) : User.t :=
  User.set_status (g (User.status u)) u.

Definition with_statuses (g : string → string) (st : state) : state :=
  mkState (restatus g <$> users st) (transactions st).

(** ** Notions used in the statements *)

(** The money in the accounts file, for a way [w] of valuing a balance. *)
Definition total (w : jsval → Z) (us : list User.t) : Z :=
  foldr (λ u acc, w (User.balance u) + acc) 0 us.

(** A number that is neither [NaN] nor infinite. *)
Definition is_finite (x : number) : bool :=
  match x with
  | S754_zero _ | S754_finite _ _ _ => true
  | _ => false
  end.

(** The rational a finite number stands for. *)
Definition value (x : number) : Q :=
  match x with
  | S754_finite s m e => (inject_Z (cond_Zopp s (Zpos m)) * Qpower 2 e)%Q
  | _ => 0%Q
  end.

(** The subtraction, or the addition, of two numbers comes out finite and
    without rounding. *)
Definition exact_sub (x y : number) : Prop :=
  is_finite (num_sub x y) = true
  ∧ (value (num_sub x y) == value x - value y)%Q.

Definition exact_add (x y : number) : Prop :=
  is_finite (num_add x y) = true
  ∧ (value (num_add x y) == value x + value y)%Q.

(** The range of [Math.floor(1000000000 + Math.random() * 9000000000)] for
    [Math.random()] in [0, 1). *)
Definition in_range (n : Z) : Prop := 1000000000 ≤ n < 10000000000.

(** A decimal digit. *)
Definition is_digit (c : Ascii.ascii) : Prop :=
  (48 ≤ Ascii.nat_of_ascii c ≤ 57)%nat.

(** The shape of a transaction object, as the two handlers build them. *)
Definition well_formed_tx (t : Tx.t) : Prop :=
  Tx.status t = "completed"
  ∧ ((Tx.type t = "transfer" ∧ is_Some (Tx.senderId t) ∧ Tx.adminId t = None)
     ∨ (Tx.type t = "admin-fund" ∧ Tx.senderId t = None ∧ is_Some (Tx.adminId t))).

(** The seeded admin, up to its balance. *)
Definition is_seed_admin (u : User.t) : Prop :=
  User.id u = "admin-1" ∧ User.name u = "Admin User"
  ∧ User.email u = "admin@example.com" ∧ User.password u = "admin123"
  ∧ User.accountNumber u = "9876543210".

(** ** Sample data *)

Module Sample.
Definition t0 : string := "2024-01-01T00:00:00.000Z".
Definition t1 : string := "2024-01-02T00:00:00.000Z".

(** The sample requests carry numbers and booleans only, so that no
    conversion between strings and numbers is applied when they are served;
    these stand-ins are never called. *)
Definition conv : conversions :=
  mkConversions (λ _, NaN) (λ _, EmptyString) (λ _, NaN).

Definition admin : User.t := seed_admin t0.

Definition alice : User.t :=
  User.mk "user-0001" "Alice Doe" "alice@example.com" "secret" "user"
    "1234567890" (JNum (of_Z 0)) "USD" "active" t1.

(** Every read and write succeeds; the first number drawn is the admin's. *)
Definition env_ok : env :=
  mkEnv "0001" t1 [9876543210; 1234567890] true true true true conv.
(** The accounts file is written, the transactions file is not. *)
Definition env_tx_fails : env := mkEnv "0001" t1 [] true false true true conv.
(** The accounts file is not written. *)
Definition env_users_fail : env := mkEnv "0001" t1 [] false true true true conv.
(** [transactions.json] cannot be read. *)
Definition env_log_unreadable : env :=
  mkEnv "0002" t1 [] true true true false conv.

Definition register_alice : RegisterReq.t :=
  RegisterReq.mk "Alice" "Doe" "alice@example.com" "secret".

Definition fresh : state := seed t0.
Definition with_alice : state := mkState [admin; alice] [].

Definition code : string := "45242769012".

Definition admin_to_alice : SendReq.t :=
  SendReq.mk "admin-1" "1234567890" (JNum (of_Z 40)) None code.
Definition admin_to_admin : SendReq.t :=
  SendReq.mk "admin-1" "9876543210" (JNum (of_Z 40)) None code.
Definition wrong_code : SendReq.t :=
  SendReq.mk "admin-1" "1234567890" (JNum (of_Z 40)) None "00000000000".
Definition no_sender_wrong_code : SendReq.t :=
  SendReq.mk EmptyString "1234567890" (JNum (of_Z 40)) None "00000000000".

Definition fund_alice : FundReq.t :=
  FundReq.mk "admin-1" "1234567890" (JNum (of_Z 500)) None.

(** A funding whose amount is the JSON value [true]. *)
Definition fund_alice_true : FundReq.t :=
  FundReq.mk "admin-1" "1234567890" (JBool true) None.

(** Two fundings that bring both balances to 2^53 = 9007199254740992. *)
Definition fund_alice_big : FundReq.t :=
  FundReq.mk "admin-1" "1234567890" (JNum (of_Z 9007199254740992)) None.
Definition fund_admin_big : FundReq.t :=
  FundReq.mk "admin-1" "9876543210" (JNum (of_Z 9007198754740992)) None.
Definition both_big : state :=
  (fund (fund with_alice fund_alice_big env_ok).2 fund_admin_big env_ok).2.

Definition admin_to_alice_1 : SendReq.t :=
  SendReq.mk "admin-1" "1234567890" (JNum (of_Z 1)) None code.

(** The files after one transfer of 40 from the admin to Alice. *)
Definition after_transfer : state :=
  (send with_alice admin_to_alice env_ok).2.
End Sample.

(** Discharges [transfer_run] and [fund_run] on closed data. *)
Ltac closed_run :=
  constructor;
  first [ split; discriminate
        | eexists; vm_compute; reflexivity
        | vm_compute; reflexivity
        | vm_compute; discriminate ].

(** The sample states are reached from the seed. *)
Ltac reach_with_alice :=
  apply (reachable_step Sample.fresh);
  [ apply reachable_seed
  | apply (step_register _ Sample.register_alice Sample.env_ok
             (mkResponse 201 (UserBody (withoutPassword Sample.alice))));
    vm_compute; reflexivity ].

Ltac reach_after_transfer :=
  apply (reachable_step Sample.with_alice);
  [ reach_with_alice
  | apply (step_send _ Sample.admin_to_alice Sample.env_ok
             (send Sample.with_alice Sample.admin_to_alice Sample.env_ok).1);
    vm_compute; reflexivity ].

Ltac reach_both_big :=
  apply (reachable_step (fund Sample.with_alice Sample.fund_alice_big Sample.env_ok).2);
  [ apply (reachable_step Sample.with_alice);
    [ reach_with_alice
    | apply (step_fund _ Sample.fund_alice_big Sample.env_ok
               (fund Sample.with_alice Sample.fund_alice_big Sample.env_ok).1);
      vm_compute; reflexivity ]
  | apply (step_fund _ Sample.fund_admin_big Sample.env_ok
             (fund (fund Sample.with_alice Sample.fund_alice_big Sample.env_ok).2
                   Sample.fund_admin_big Sample.env_ok).1);
    vm_compute; reflexivity ].

(** ** Basic facts *)

Section Helpers.
Implicit Types (us : list User.t) (u : User.t) (a b : jsval) (i j : nat)
  (c : conversions).

Lemma falsy_false s : falsy s = false ↔ s ≠ EmptyString.
Proof. unfold falsy. by rewrite bool_decide_eq_false. Qed.

Lemma some_false {A} (P : A → Prop) `{!∀ x, Decision (P x)} (l : list A) :
  some P l = false ↔ ∀ x, x ∈ l → ¬ P x.
Proof.
  unfold some. rewrite bool_decide_eq_false, <- Forall_Exists_neg, Forall_forall.
  done.
Qed.

Lemma find_lookup {A} (P : A → Prop) `{!∀ x, Decision (P x)} (l : list A) i x :
  find P l = Some (i, x) → l !! i = Some x ∧ P x.
Proof. unfold find. by intros (? & ? & _)%list_find_Some. Qed.

Lemma readData_Some {A} (ok : bool) (l : list A) i x :
  readData ok l !! i = Some x → ok = true ∧ l !! i = Some x.
Proof. by destruct ok. Qed.

(** The balance updates touch the balance only. *)
Lemma debit_fields c a u : same_but_balance u (debit c a u).
Proof. by destruct u. Qed.

Lemma credit_fields c a u : same_but_balance u (credit c a u).
Proof. by destruct u. Qed.

Lemma stored_user_fields u : same_but_balance u (stored_user u).
Proof. by destruct u. Qed.

Lemma same_but_balance_refl u : same_but_balance u u.
Proof. by repeat split. Qed.

Lemma same_but_balance_trans u v w :
  same_but_balance u v → same_but_balance v w → same_but_balance u w.
Proof. unfold same_but_balance. intros. destruct_and!. split_and!; congruence. Qed.

(** A list whose entries were updated in their balances only. *)
Lemma rebalanced_refl us : Forall2 same_but_balance us us.
Proof.
  apply Forall2_same_length_lookup_2; [done|]. intros i x y ??. simplify_eq.
  apply same_but_balance_refl.
Qed.

Lemma rebalanced_alter (g : User.t → User.t) k us us' :
  (∀ u, same_but_balance u (g u)) →
  Forall2 same_but_balance us us' → Forall2 same_but_balance us (alter g k us').
Proof.
  intros Hg H. apply Forall2_alter_r; [done|]. intros x y _ _ Hxy.
  eapply same_but_balance_trans; [exact Hxy|apply Hg].
Qed.

Lemma rebalanced_fmap {B} (f : User.t → B) us us' :
  (∀ u v, same_but_balance u v → f v = f u) →
  Forall2 same_but_balance us us' → f <$> us' = f <$> us.
Proof. intros Hf H. induction H; simpl; [done|]. f_equal; auto. Qed.

Lemma rebalanced_Forall (P : User.t → Prop) us us' :
  (∀ u v, same_but_balance u v → P u → P v) →
  Forall2 same_but_balance us us' → Forall P us → Forall P us'.
Proof.
  intros HP H. induction H; intros Hus; [done|].
  apply Forall_cons in Hus as [? ?]. constructor; eauto.
Qed.

Lemma transfer_file_rebalanced c a i j us :
  Forall2 same_but_balance us (transfer_file c a i j us).
Proof.
  unfold transfer_file, transfer_memory.
  repeat (apply rebalanced_alter;
          [first [apply stored_user_fields|apply credit_fields|apply debit_fields]|]).
  apply rebalanced_refl.
Qed.

Lemma fund_file_rebalanced c a j us :
  Forall2 same_but_balance us (fund_file c a j us).
Proof.
  unfold fund_file.
  repeat (apply rebalanced_alter;
          [first [apply stored_user_fields|apply credit_fields]|]).
  apply rebalanced_refl.
Qed.

(** The positions of a transfer after the updates. *)
Lemma transfer_file_sender c a us i j s :
  us !! i = Some s → i ≠ j →
  transfer_file c a i j us !! i = Some (stored_user (debit c a s)).
Proof.
  intros Hs Hij. unfold transfer_file, transfer_memory.
  rewrite list_lookup_alter_ne by done. rewrite list_lookup_alter_eq.
  rewrite list_lookup_alter_ne by done. by rewrite list_lookup_alter_eq, Hs.
Qed.

Lemma transfer_file_recipient c a us i j r :
  us !! j = Some r → i ≠ j →
  transfer_file c a i j us !! j = Some (stored_user (credit c a r)).
Proof.
  intros Hr Hij. unfold transfer_file, transfer_memory.
  rewrite list_lookup_alter_eq. rewrite list_lookup_alter_ne by done.
  rewrite list_lookup_alter_eq. by rewrite list_lookup_alter_ne, Hr.
Qed.

Lemma transfer_file_self c a us i s :
  us !! i = Some s →
  transfer_file c a i i us
  = alter (λ u, stored_user (stored_user (credit c a (debit c a u)))) i us.
Proof.
  intros Hs. unfold transfer_file, transfer_memory.
  rewrite !list_alter_alter_eq. done.
Qed.

Lemma transfer_file_other c a us i j k :
  k ≠ i → k ≠ j → transfer_file c a i j us !! k = us !! k.
Proof.
  intros ??. unfold transfer_file, transfer_memory.
  by rewrite !list_lookup_alter_ne.
Qed.

Lemma stored_idem v : stored (stored v) = stored v.
Proof. by destruct v as [| |[]|]. Qed.

Lemma stored_user_idem u : stored_user (stored_user u) = stored_user u.
Proof. destruct u. unfold stored_user. simpl. by rewrite stored_idem. Qed.
End Helpers.

(** ** What each handler can do to the files *)

Lemma send_cases st rq e :
  (success (send st rq e).1 = false ∧ (send st rq e).2 = st)
  ∨ ∃ i j s r, transfer_run st rq e i j s r ∧
      let t := stored_tx (transferTx rq s r e) in
      let us := transfer_file (js e) (SendReq.amount rq) i j (users st) in
      ((users_write_ok e = true ∧ transactions_write_ok e = true ∧
        send st rq e = (mkResponse 200 (TxBody t),
                        mkState us (read_transactions e st ++ [t])))
       ∨ (users_write_ok e = true ∧ transactions_write_ok e = false ∧
          send st rq e = (mkResponse 500 (Failure "Failed to process transaction"),
                          mkState us (transactions st)))
       ∨ (users_write_ok e = false ∧
          send st rq e = (mkResponse 500 (Failure "Failed to process transaction"), st))).
Proof.
  unfold send.
  destruct (falsy (SendReq.senderId rq)) eqn:H1; [by left|].
  destruct (falsy (SendReq.recipientAccountNumber rq)) eqn:H2; [by left|].
  destruct (bad_amount _ _) eqn:H3; [by left|].
  simpl. case_bool_decide; [by left|].
  destruct (find _ _) as [[i s]|] eqn:Hs; [|by left].
  destruct (find (λ u, User.accountNumber u = _) _) as [[j r]|] eqn:Hr; [|by left].
  destruct (js_lt _ _ _) eqn:Hf; [by left|].
  right. exists i, j, s, r. split.
  { split; try done. split; by apply falsy_false. }
  assert (read_users e st = users st) as Hread.
  { apply find_lookup in Hs as [Hs _]. unfold read_users in *.
    by destruct (users_read_ok e). }
  rewrite Hread. simpl.
  destruct (users_write_ok e), (transactions_write_ok e); naive_solver.
Qed.

(** A run reads the accounts file. *)
Lemma transfer_run_read st rq e i j s r :
  transfer_run st rq e i j s r → read_users e st = users st.
Proof.
  intros [_ _ _ Hs _ _]. apply find_lookup in Hs as [Hs _].
  unfold read_users in *. by destruct (users_read_ok e).
Qed.

Lemma fund_run_read st rq e j admin user :
  fund_run st rq e j admin user → read_users e st = users st.
Proof.
  intros [_ _ _ Hu]. apply find_lookup in Hu as [Hu _].
  unfold read_users in *. by destruct (users_read_ok e).
Qed.

Lemma send_run st rq e i j s r :
  transfer_run st rq e i j s r →
  let t := stored_tx (transferTx rq s r e) in
  let us := transfer_file (js e) (SendReq.amount rq) i j (users st) in
  send st rq e =
    if users_write_ok e
    then if transactions_write_ok e
         then (mkResponse 200 (TxBody t), mkState us (read_transactions e st ++ [t]))
         else (mkResponse 500 (Failure "Failed to process transaction"),
               mkState us (transactions st))
    else (mkResponse 500 (Failure "Failed to process transaction"), st).
Proof.
  intros Hrun. pose proof (transfer_run_read _ _ _ _ _ _ _ Hrun) as Hread.
  destruct Hrun as [[Hs Hr] Hamt Hcode Hsnd Hrcp Hfunds]. unfold send.
  rewrite (proj2 (falsy_false _) Hs), (proj2 (falsy_false _) Hr), Hamt. simpl.
  rewrite bool_decide_eq_false_2 by (by intros []).
  rewrite Hsnd, Hrcp, Hfunds. by rewrite Hread.
Qed.

Lemma send_success st rq e resp st' :
  send st rq e = (resp, st') → success resp = true →
  ∃ i j s r, transfer_run st rq e i j s r
    ∧ users_write_ok e = true ∧ transactions_write_ok e = true
    ∧ resp = mkResponse 200 (TxBody (stored_tx (transferTx rq s r e)))
    ∧ st' = mkState (transfer_file (js e) (SendReq.amount rq) i j (users st))
                    (read_transactions e st ++ [stored_tx (transferTx rq s r e)]).
Proof.
  intros Hsend Hok.
  destruct (send_cases st rq e) as [[Hfail _]|(i & j & s & r & Hrun & Hcase)].
  { rewrite Hsend in Hfail. simpl in Hfail. congruence. }
  exists i, j, s, r. simpl in Hcase.
  destruct Hcase as [(Hu & Ht & Heq)|[(Hu & Ht & Heq)|(Hu & Heq)]];
    rewrite Hsend in Heq; simplify_eq/=; done.
Qed.

Lemma fund_cases st rq e :
  (success (fund st rq e).1 = false ∧ (fund st rq e).2 = st)
  ∨ ∃ j admin user, fund_run st rq e j admin user ∧
      let t := stored_tx (fundTx rq admin user e) in
      let us := fund_file (js e) (FundReq.amount rq) j (users st) in
      ((users_write_ok e = true ∧ transactions_write_ok e = true ∧
        fund st rq e = (mkResponse 200 (TxBody t),
                        mkState us (read_transactions e st ++ [t])))
       ∨ (users_write_ok e = true ∧ transactions_write_ok e = false ∧
          fund st rq e = (mkResponse 500 (Failure "Failed to fund user"),
                          mkState us (transactions st)))
       ∨ (users_write_ok e = false ∧
          fund st rq e = (mkResponse 500 (Failure "Failed to fund user"), st))).
Proof.
  unfold fund.
  destruct (falsy (FundReq.adminId rq)) eqn:H1; [by left|].
  destruct (falsy (FundReq.accountNumber rq)) eqn:H2; [by left|].
  destruct (bad_amount _ _) eqn:H3; [by left|]. simpl.
  destruct (find _ _) as [[k admin]|] eqn:Ha; [|by left].
  destruct (find (λ u, User.accountNumber u = _) _) as [[j user]|] eqn:Hu; [|by left].
  right. exists j, admin, user. split.
  { split; try done; [split; by apply falsy_false | by exists k]. }
  assert (read_users e st = users st) as Hread.
  { apply find_lookup in Hu as [Hu _]. unfold read_users in *.
    by destruct (users_read_ok e). }
  rewrite Hread. simpl.
  destruct (users_write_ok e), (transactions_write_ok e); naive_solver.
Qed.

Lemma fund_run_eq st rq e j admin user :
  fund_run st rq e j admin user →
  let t := stored_tx (fundTx rq admin user e) in
  let us := fund_file (js e) (FundReq.amount rq) j (users st) in
  fund st rq e =
    if users_write_ok e
    then if transactions_write_ok e
         then (mkResponse 200 (TxBody t), mkState us (read_transactions e st ++ [t]))
         else (mkResponse 500 (Failure "Failed to fund user"),
               mkState us (transactions st))
    else (mkResponse 500 (Failure "Failed to fund user"), st).
Proof.
  intros Hrun. pose proof (fund_run_read _ _ _ _ _ _ Hrun) as Hread.
  destruct Hrun as [[Ha Hn] Hamt [k Hadm] Husr]. unfold fund.
  rewrite (proj2 (falsy_false _) Ha), (proj2 (falsy_false _) Hn), Hamt. simpl.
  rewrite Hadm, Husr. by rewrite Hread.
Qed.

Lemma fund_success st rq e resp st' :
  fund st rq e = (resp, st') → success resp = true →
  ∃ j admin user, fund_run st rq e j admin user
    ∧ users_write_ok e = true ∧ transactions_write_ok e = true
    ∧ resp = mkResponse 200 (TxBody (stored_tx (fundTx rq admin user e)))
    ∧ st' = mkState (fund_file (js e) (FundReq.amount rq) j (users st))
                    (read_transactions e st ++ [stored_tx (fundTx rq admin user e)]).
Proof.
  intros Hfund Hok.
  destruct (fund_cases st rq e) as [[Hfail _]|(j & admin & user & Hrun & Hcase)].
  { rewrite Hfund in Hfail. simpl in Hfail. congruence. }
  exists j, admin, user. simpl in Hcase.
  destruct Hcase as [(Hu & Ht & Heq)|[(Hu & Ht & Heq)|(Hu & Heq)]];
    rewrite Hfund in Heq; simplify_eq/=; done.
Qed.

Lemma deleteUser_cases st id e :
  (success (deleteUser st id e).1 = false ∧ (deleteUser st id e).2 = st)
  ∨ ∃ i u, find (λ u, User.id u = id) (users st) = Some (i, u)
      ∧ User.role u ≠ "admin" ∧ users_write_ok e = true
      ∧ deleteUser st id e = (mkResponse 200 (Done "User deleted successfully"),
                              mkState (delete i (users st)) (transactions st)).
Proof.
  unfold deleteUser.
  destruct (find _ _) as [[i u]|] eqn:Hf; [|by left].
  case_bool_decide; [by left|].
  destruct (users_write_ok e) eqn:Hw; [|by left].
  right. by exists i, u.
Qed.

Lemma allocate_fresh us ds a :
  allocate us ds = Some a → ∀ u, u ∈ us → User.accountNumber u ≠ a.
Proof.
  induction ds as [|n ds IH]; simpl; [done|].
  destruct (some _ us) eqn:Hs; [done|].
  intros [= <-]. apply (proj1 (some_false _ us) Hs).
Qed.


Lemma register_cases st rq e r st' :
  register st rq e = Some (r, st') →
  (success r = false ∧ st' = st)
  ∨ ∃ a, allocate (read_users e st) (draws e) = Some a
      ∧ (∀ u, u ∈ read_users e st → User.email u ≠ RegisterReq.email rq)
      ∧ (RegisterReq.email rq ≠ EmptyString ∧ RegisterReq.password rq ≠ EmptyString)
      ∧ users_write_ok e = true
      ∧ r = mkResponse 201 (UserBody (withoutPassword (newUser rq a e)))
      ∧ st' = mkState (read_users e st ++ [newUser rq a e]) (transactions st).
Proof.
  unfold register.
  destruct (falsy (RegisterReq.firstName rq)); [by intros [= <- <-]; left|].
  destruct (falsy (RegisterReq.lastName rq)); [by intros [= <- <-]; left|].
  destruct (falsy (RegisterReq.email rq)) eqn:Hm; [by intros [= <- <-]; left|].
  destruct (falsy (RegisterReq.password rq)) eqn:Hp; [by intros [= <- <-]; left|].
  simpl.
  destruct (some _ (read_users e st)) eqn:He; [by intros [= <- <-]; left|].
  destruct (allocate _ _) as [a|] eqn:Ha; [|done].
  destruct (users_write_ok e) eqn:Hw; intros [= <- <-]; [|by left].
  right. exists a. split_and!; try done; [|by apply falsy_false..].
  apply (proj1 (some_false _ _) He).
Qed.


(** [find] resolves the same position after an update that does not change
    what the predicate looks at. *)
Lemma find_alter {A} (P : A → Prop) `{!∀ x, Decision (P x)} (g : A → A) l k i x :
  (∀ y, P (g y) ↔ P y) →
  find P l = Some (i, x) →
  find P (alter g k l) = Some (i, if decide (i = k) then g x else x).
Proof.
  intros Hg. unfold find. rewrite !list_find_Some. intros (Hx & HP & Hleast).
  split_and!.
  - destruct (decide (i = k)) as [->|Hne].
    + by rewrite list_lookup_alter_eq, Hx.
    + by rewrite list_lookup_alter_ne.
  - destruct (decide (i = k)); [by apply Hg|done].
  - intros j y Hy Hj. destruct (decide (k = j)) as [->|Hne].
    + rewrite list_lookup_alter_eq in Hy.
      destruct (l !! j) as [z|] eqn:Hz; simplify_eq/=.
      rewrite Hg. by eapply Hleast.
    + rewrite list_lookup_alter_ne in Hy by done. by eapply Hleast.
Qed.

(** The shapes the accounts file can take after one request. *)
Lemma step_users st st' :
  step st st' →
  Forall2 same_but_balance (users st) (users st')
  ∨ (∃ rq a e, allocate (read_users e st) (draws e) = Some a
       ∧ (∀ u, u ∈ read_users e st → User.email u ≠ RegisterReq.email rq)
       ∧ (RegisterReq.email rq ≠ EmptyString
          ∧ RegisterReq.password rq ≠ EmptyString)
       ∧ users st' = read_users e st ++ [newUser rq a e])
  ∨ (∃ i u, users st !! i = Some u ∧ User.role u ≠ "admin"
       ∧ users st' = delete i (users st)).
Proof.
  destruct 1 as [st rq e r st' H|st id e r st' H|st rq e r st' H|st rq e r st' H].
  - apply register_cases in H as [[_ ->]|(a & Ha & Hem & Hne & _ & _ & ->)].
    + left. apply rebalanced_refl.
    + right; left. by exists rq, a, e.
  - destruct (deleteUser_cases st id e) as [[_ Heq]|(i & u & Hf & Hr & _ & Heq)];
      rewrite H in Heq; simplify_eq/=; [left; apply rebalanced_refl|].
    right; right. exists i, u. by apply find_lookup in Hf as [? _].
  - left. destruct (send_cases st rq e) as [[_ Heq]|(i & j & s & r' & Hrun & Hcase)].
    { rewrite H in Heq. simplify_eq/=. apply rebalanced_refl. }
    simpl in Hcase.
    destruct Hcase as [(_ & _ & Heq)|[(_ & _ & Heq)|(_ & Heq)]];
      rewrite H in Heq; simplify_eq/=;
      first [apply transfer_file_rebalanced|apply rebalanced_refl].
  - left. destruct (fund_cases st rq e) as [[_ Heq]|(j & admin & user & Hrun & Hcase)].
    { rewrite H in Heq. simplify_eq/=. apply rebalanced_refl. }
    simpl in Hcase.
    destruct Hcase as [(_ & _ & Heq)|[(_ & _ & Heq)|(_ & Heq)]];
      rewrite H in Heq; simplify_eq/=;
      first [apply fund_file_rebalanced|apply rebalanced_refl].
Qed.

Lemma read_users_sub e st u : u ∈ read_users e st → u ∈ users st.
Proof. unfold read_users, readData. destruct (users_read_ok e); [done|]. by intros ?%elem_of_nil. Qed.

Lemma read_users_NoDup {B} (f : User.t → B) e st :
  NoDup (f <$> users st) → NoDup (f <$> read_users e st).
Proof.
  unfold read_users, readData. destruct (users_read_ok e); [done|].
  intros _. apply NoDup_nil_2.
Qed.

(** Distinct account numbers and distinct e-mail addresses survive every
    request. *)
Lemma step_unique st st' :
  step st st' →
  NoDup (User.accountNumber <$> users st) ∧ NoDup (User.email <$> users st) →
  NoDup (User.accountNumber <$> users st') ∧ NoDup (User.email <$> users st').
Proof.
  intros Hstep [Hacc Hem].
  destruct (step_users _ _ Hstep)
    as [Hreb|[(rq & a & e & Ha & Hfresh & _ & ->)|(i & u & _ & _ & ->)]].
  - assert (Hf : ∀ u v, same_but_balance u v →
              User.accountNumber v = User.accountNumber u
              ∧ User.email v = User.email u).
    { intros u v Huv. unfold same_but_balance in Huv. by destruct_and!. }
    rewrite (rebalanced_fmap User.accountNumber _ _ (λ u v H, proj1 (Hf u v H)) Hreb).
    by rewrite (rebalanced_fmap User.email _ _ (λ u v H, proj2 (Hf u v H)) Hreb).
  - rewrite !fmap_app. simpl. split; apply NoDup_app; split_and!.
    + by apply read_users_NoDup.
    + intros x (u & -> & Hu)%list_elem_of_fmap [Heq|[]%elem_of_nil]%elem_of_cons.
      by eapply allocate_fresh.
    + apply NoDup_singleton.
    + by apply read_users_NoDup.
    + intros x (u & -> & Hu)%list_elem_of_fmap [Heq|[]%elem_of_nil]%elem_of_cons.
      by eapply Hfresh.
    + apply NoDup_singleton.
  - rewrite !list_fmap_delete.
    split; (eapply sublist_NoDup; [|apply sublist_delete]); done.
Qed.

Lemma reachable_unique st :
  reachable st →
  NoDup (User.accountNumber <$> users st) ∧ NoDup (User.email <$> users st).
Proof.
  induction 1 as [created|st st' _ IH Hstep].
  - simpl. split; apply NoDup_singleton.
  - by eapply step_unique.
Qed.

(** Looking an entry up by fields other than the balance gives the same
    position before and after the balances are updated. *)
Lemma find_rebalanced (P : User.t → Prop) `{!∀ u, Decision (P u)} us us' k x :
  (∀ u v, same_but_balance u v → (P v ↔ P u)) →
  Forall2 same_but_balance us us' →
  find P us = Some (k, x) →
  ∃ y, find P us' = Some (k, y) ∧ us' !! k = Some y ∧ same_but_balance x y.
Proof.
  intros HP Hreb. unfold find. rewrite list_find_Some. intros (Hx & HPx & Hleast).
  destruct (Forall2_lookup_l _ _ _ _ _ Hreb Hx) as (y & Hy & Hxy).
  exists y. split_and!; [|done..]. apply list_find_Some. split_and!; [done|..].
  - by apply (HP x y).
  - intros m z Hz Hm HPz.
    destruct (Forall2_lookup_r _ _ _ _ _ Hreb Hz) as (w & Hw & Hwz).
    apply (Hleast m w Hw Hm). by apply (HP w z).
Qed.

Lemma by_id_rebalanced id u v :
  same_but_balance u v → (User.id v = id ↔ User.id u = id).
Proof. unfold same_but_balance. intros. destruct_and!. by split; congruence. Qed.

Lemma by_number_rebalanced n u v :
  same_but_balance u v → (User.accountNumber v = n ↔ User.accountNumber u = n).
Proof. unfold same_but_balance. intros. destruct_and!. by split; congruence. Qed.

(** A finite number comes back from the file with the value it had. *)
Lemma stored_finite x :
  is_finite x = true →
  ∃ x', stored (JNum x) = JNum x' ∧ (value x' == value x)%Q.
Proof. destruct x; try done; eexists; by split. Qed.

Lemma balance_stored_debit c a u :
  User.balance (stored_user (debit c a u)) = stored (js_sub c (User.balance u) a).
Proof. by destruct u. Qed.

Lemma balance_stored_credit c a u :
  User.balance (stored_user (credit c a u)) = stored (js_add c (User.balance u) a).
Proof. by destruct u. Qed.

(** ** Transfers *)

(** C1, as stated, promises that the debit and the credit of a successful
    transfer are both the requested amount.  The balances are binary64
    numbers: after two accepted fundings have brought both balances to 2^53,
    a transfer of 1 is answered 200, takes 1 from the sender and leaves the
    recipient where it was. *)
Lemma rounding_breaks_conservation :
  reachable Sample.both_big
  ∧ User.balance <$> users Sample.both_big
    = [JNum (of_Z 9007199254740992); JNum (of_Z 9007199254740992)]
  ∧ success (send Sample.both_big Sample.admin_to_alice_1 Sample.env_ok).1 = true
  ∧ User.balance <$> users (send Sample.both_big Sample.admin_to_alice_1
                                 Sample.env_ok).2
    = [JNum (of_Z 9007199254740991); JNum (of_Z 9007199254740992)].
Proof. split_and!; [reach_both_big|vm_compute; reflexivity..]. Qed.

(** C1, amended.  In a transfer that succeeds between two different
    accounts, with a number for the amount and numbers for the two balances,
    the sender's balance becomes [balance - amount] and the recipient's
    [balance + amount], each as binary64 arithmetic gives it and as it comes
    back from the file.  Whenever that subtraction and that addition come out
    finite and without rounding, the debit and the credit are both the
    amount, and the sum of the two balances is what it was. *)
Theorem transfer_conservation st rq e resp st' i j s r bs br a :
  send st rq e = (resp, st') →
  success resp = true →
  find (λ u, User.id u = SendReq.senderId rq) (read_users e st) = Some (i, s) →
  find (λ u, User.accountNumber u = SendReq.recipientAccountNumber rq)
       (read_users e st) = Some (j, r) →
  i ≠ j →
  User.balance s = JNum bs →
  User.balance r = JNum br →
  SendReq.amount rq = JNum a →
  ∃ s' r',
    find (λ u, User.id u = SendReq.senderId rq) (users st') = Some (i, s')
    ∧ find (λ u, User.accountNumber u = SendReq.recipientAccountNumber rq) (users st')
      = Some (j, r')
    ∧ User.balance s' = stored (JNum (num_sub bs a))
    ∧ User.balance r' = stored (JNum (num_add br a))
    ∧ (exact_sub bs a → exact_add br a →
       ∃ x y, User.balance s' = JNum x ∧ User.balance r' = JNum y
         ∧ (value bs - value x == value a)%Q
         ∧ (value y - value br == value a)%Q
         ∧ (value x + value y == value bs + value br)%Q).
Proof.
  intros Hsend Hok Hs Hr Hij Hbs Hbr Ha.
  destruct (send_success _ _ _ _ _ Hsend Hok)
    as (i' & j' & s0 & r0 & Hrun & _ & _ & _ & ->).
  pose proof (transfer_run_read _ _ _ _ _ _ _ Hrun) as Hread.
  destruct Hrun as [_ _ _ Hs' Hr' _]. simplify_eq. rewrite Hread in *. simpl.
  pose proof (transfer_file_rebalanced (js e) (SendReq.amount rq) i j (users st))
    as Hreb.
  destruct (find_rebalanced _ _ _ _ _ (by_id_rebalanced _) Hreb Hs)
    as (s' & Hfs & Hls & _).
  destruct (find_rebalanced _ _ _ _ _ (by_number_rebalanced _) Hreb Hr)
    as (r' & Hfr & Hlr & _).
  apply find_lookup in Hs as [Hs _]. apply find_lookup in Hr as [Hr _].
  rewrite (transfer_file_sender _ _ _ _ _ _ Hs Hij) in Hls.
  rewrite (transfer_file_recipient _ _ _ _ _ _ Hr Hij) in Hlr.
  simplify_eq.
  assert (E1 : User.balance (stored_user (debit (js e) (SendReq.amount rq) s))
               = stored (JNum (num_sub bs a))).
  { rewrite balance_stored_debit, Hbs, Ha. done. }
  assert (E2 : User.balance (stored_user (credit (js e) (SendReq.amount rq) r))
               = stored (JNum (num_add br a))).
  { rewrite balance_stored_credit, Hbr, Ha. done. }
  eexists _, _. split_and!; [exact Hfs|exact Hfr|exact E1|exact E2|].
  intros [Hfin1 Hval1] [Hfin2 Hval2]. rewrite E1, E2.
  destruct (stored_finite _ Hfin1) as (x & -> & Hx).
  destruct (stored_finite _ Hfin2) as (y & -> & Hy).
  exists x, y. split_and!; [done|done|lra..].
Qed.

Lemma transfer_conservation_witness :
  let out := send Sample.with_alice Sample.admin_to_alice Sample.env_ok in
  success out.1 = true
  ∧ exact_sub (of_Z 500000000) (of_Z 40)
  ∧ exact_add (of_Z 0) (of_Z 40)
  ∧ ∃ s' r',
      find (λ u, User.id u = "admin-1") (users out.2) = Some (0%nat, s')
      ∧ find (λ u, User.accountNumber u = "1234567890") (users out.2)
        = Some (1%nat, r')
      ∧ User.balance s' = stored (JNum (num_sub (of_Z 500000000) (of_Z 40)))
      ∧ User.balance r' = stored (JNum (num_add (of_Z 0) (of_Z 40)))
      ∧ ∃ x y, User.balance s' = JNum x ∧ User.balance r' = JNum y
          ∧ (value (of_Z 500000000) - value x == value (of_Z 40))%Q
          ∧ (value y - value (of_Z 0) == value (of_Z 40))%Q
          ∧ (value x + value y == value (of_Z 500000000) + value (of_Z 0))%Q.
Proof.
  intros out.
  assert (Hsub : exact_sub (of_Z 500000000) (of_Z 40))
    by (split; [reflexivity|unfold Qeq; vm_compute; reflexivity]).
  assert (Hadd : exact_add (of_Z 0) (of_Z 40))
    by (split; [reflexivity|unfold Qeq; vm_compute; reflexivity]).
  split_and!; [vm_compute; reflexivity|exact Hsub|exact Hadd|].
  assert (H : ∃ s' r',
      find (λ u, User.id u = "admin-1") (users out.2) = Some (0%nat, s')
      ∧ find (λ u, User.accountNumber u = "1234567890") (users out.2)
        = Some (1%nat, r')
      ∧ User.balance s' = stored (JNum (num_sub (of_Z 500000000) (of_Z 40)))
      ∧ User.balance r' = stored (JNum (num_add (of_Z 0) (of_Z 40)))
      ∧ (exact_sub (of_Z 500000000) (of_Z 40) → exact_add (of_Z 0) (of_Z 40) →
         ∃ x y, User.balance s' = JNum x ∧ User.balance r' = JNum y
           ∧ (value (of_Z 500000000) - value x == value (of_Z 40))%Q
           ∧ (value y - value (of_Z 0) == value (of_Z 40))%Q
           ∧ (value x + value y == value (of_Z 500000000) + value (of_Z 0))%Q)).
  { apply (transfer_conservation Sample.with_alice Sample.admin_to_alice
             Sample.env_ok out.1 out.2 0%nat 1%nat Sample.admin Sample.alice
             (of_Z 500000000) (of_Z 0) (of_Z 40)).
    - vm_compute; reflexivity.
    - vm_compute; reflexivity.
    - vm_compute; reflexivity.
    - vm_compute; reflexivity.
    - discriminate.
    - reflexivity.
    - reflexivity.
    - reflexivity. }
  destruct H as (s' & r' & H1 & H2 & H3 & H4 & H5).
  exists s', r'. split_and!; [exact H1|exact H2|exact H3|exact H4|].
  exact (H5 Hsub Hadd).
Defined.

(** C10, as stated, promises that a successful transfer keeps every earlier
    entry of the log.  The handler appends to what [readData] returns, and
    [readData] returns the empty array when [transactions.json] cannot be
    read: after one transfer, a second one served while the file is
    unreadable is answered 200 and leaves a log that holds the second
    transfer alone. *)
Lemma unreadable_log_overwritten :
  let t1 := stored_tx (transferTx Sample.admin_to_alice Sample.admin Sample.alice
                                  Sample.env_ok) in
  let out := send Sample.after_transfer Sample.admin_to_alice
                  Sample.env_log_unreadable in
  reachable Sample.after_transfer
  ∧ transactions Sample.after_transfer = [t1]
  ∧ success out.1 = true
  ∧ length (transactions out.2) = 1%nat
  ∧ t1 ∉ transactions out.2.
Proof.
  split_and!; [reach_after_transfer|vm_compute; reflexivity..|].
  vm_compute. intros [H|H]%elem_of_cons; [discriminate|by apply elem_of_nil in H].
Qed.

(** C10, amended.  A transfer that succeeds between two different accounts
    while [transactions.json] can be read changes nothing but the two
    balances: the accounts file keeps its length, every other entry is what
    it was, the sender and the recipient keep every field except the
    balance, and the transaction log is the old log followed by one new
    entry. *)
Theorem transfer_frame st rq e resp st' i j s r :
  send st rq e = (resp, st') →
  success resp = true →
  transactions_read_ok e = true →
  find (λ u, User.id u = SendReq.senderId rq) (read_users e st) = Some (i, s) →
  find (λ u, User.accountNumber u = SendReq.recipientAccountNumber rq)
       (read_users e st) = Some (j, r) →
  i ≠ j →
  length (users st') = length (users st)
  ∧ (∀ k, k ≠ i → k ≠ j → users st' !! k = users st !! k)
  ∧ (∃ s' r', users st' !! i = Some s' ∧ users st' !! j = Some r'
       ∧ same_but_balance s s' ∧ same_but_balance r r')
  ∧ ∃ t, transactions st' = transactions st ++ [t].
Proof.
  intros Hsend Hok Hlog Hs Hr Hij.
  destruct (send_success _ _ _ _ _ Hsend Hok)
    as (i' & j' & s0 & r0 & Hrun & _ & _ & _ & ->).
  pose proof (transfer_run_read _ _ _ _ _ _ _ Hrun) as Hread.
  destruct Hrun as [_ _ _ Hs' Hr' _]. simplify_eq. rewrite Hread in *. simpl.
  apply find_lookup in Hs as [Hs _]. apply find_lookup in Hr as [Hr _].
  pose proof (transfer_file_rebalanced (js e) (SendReq.amount rq) i j (users st))
    as Hreb.
  split_and!.
  - symmetry. by eapply Forall2_length.
  - intros k ??. by apply transfer_file_other.
  - eexists _, _. split_and!.
    + by apply transfer_file_sender.
    + by apply transfer_file_recipient.
    + eapply same_but_balance_trans; [apply debit_fields|apply stored_user_fields].
    + eapply same_but_balance_trans; [apply credit_fields|apply stored_user_fields].
  - unfold read_transactions, readData. rewrite Hlog. by eexists.
Qed.

Lemma transfer_frame_witness :
  let st' := (send Sample.with_alice Sample.admin_to_alice Sample.env_ok).2 in
  transactions_read_ok Sample.env_ok = true
  ∧ length (users st') = 2%nat
  ∧ (∀ k, k ≠ 0%nat → k ≠ 1%nat → users st' !! k = users Sample.with_alice !! k)
  ∧ (∃ s' r', users st' !! 0%nat = Some s' ∧ users st' !! 1%nat = Some r'
       ∧ same_but_balance Sample.admin s' ∧ same_but_balance Sample.alice r')
  ∧ ∃ t, transactions st' = [] ++ [t].
Proof.
  intros st'. split; [reflexivity|].
  apply (transfer_frame Sample.with_alice Sample.admin_to_alice Sample.env_ok
           (send Sample.with_alice Sample.admin_to_alice Sample.env_ok).1
           st' 0%nat 1%nat Sample.admin Sample.alice);
    first [discriminate | vm_compute; reflexivity].
Defined.

(** C4, as the ledger contract states it, asks for a transfer to be refused
    when sender and recipient are the same account.  [server.js] has no such
    check.  On the freshly seeded file the admin sends 40 to the admin's own
    account number: both lookups return the same entry, the request is
    answered 200 and a transaction is appended. *)
Lemma self_transfer_accepted :
  let tx := stored_tx (transferTx Sample.admin_to_admin Sample.admin Sample.admin
                                  Sample.env_ok) in
  find (λ u, User.id u = SendReq.senderId Sample.admin_to_admin) (users Sample.fresh)
    = Some (0%nat, Sample.admin)
  ∧ find (λ u, User.accountNumber u
               = SendReq.recipientAccountNumber Sample.admin_to_admin)
         (users Sample.fresh)
    = Some (0%nat, Sample.admin)
  ∧ send Sample.fresh Sample.admin_to_admin Sample.env_ok
    = (mkResponse 200 (TxBody tx), mkState [Sample.admin] [tx]).
Proof. vm_compute. done. Qed.

(** C4, amended.  A transfer whose sender and recipient are the same entry of
    the accounts file is not refused for that reason: when the request is
    otherwise in order (identifiers present, amount passing the amount
    check, right code, funds check passed) and both writes succeed, it is
    answered 200 and one transfer naming the account on both sides is added
    after the log entries that were read.  The debit and the credit are
    applied one after the other to the one account, whose balance becomes
    [(balance - amount) + amount] as the language computes it; every other
    entry and every other field of the accounts file is left as it was. *)
Theorem self_transfer_succeeds st rq e i s :
  transfer_run st rq e i i s s →
  users_write_ok e = true →
  transactions_write_ok e = true →
  let amount := SendReq.amount rq in
  let t := stored_tx (transferTx rq s s e) in
  send st rq e
  = (mkResponse 200 (TxBody t),
     mkState (alter (User.set_balance
                       (stored (js_add (js e) (js_sub (js e) (User.balance s) amount)
                                       amount))) i (users st))
             (read_transactions e st ++ [t]))
  ∧ Tx.senderId t = Some (User.id s)
  ∧ Tx.recipientId t = User.id s.
Proof.
  intros Hrun Hu Ht amount t.
  rewrite (send_run _ _ e _ _ _ _ Hrun), Hu, Ht.
  pose proof (transfer_run_read _ _ _ _ _ _ _ Hrun) as Hread.
  destruct Hrun as [_ _ _ Hs _ _]. rewrite Hread in Hs.
  apply find_lookup in Hs as [Hs Hid]. split_and!; [|by rewrite Hid|done].
  f_equal. f_equal. rewrite (transfer_file_self _ _ _ _ _ Hs).
  apply list_eq. intros k. destruct (decide (i = k)) as [<-|Hne].
  - rewrite !list_lookup_alter_eq, Hs. simpl. f_equal.
    unfold stored_user, credit, debit, User.set_balance. simpl.
    by rewrite stored_idem.
  - by rewrite !list_lookup_alter_ne.
Qed.

Lemma self_transfer_succeeds_witness :
  let t := stored_tx (transferTx Sample.admin_to_admin Sample.admin Sample.admin
                                 Sample.env_ok) in
  transfer_run Sample.fresh Sample.admin_to_admin Sample.env_ok 0 0
    Sample.admin Sample.admin
  ∧ send Sample.fresh Sample.admin_to_admin Sample.env_ok
    = (mkResponse 200 (TxBody t),
       mkState (alter (User.set_balance
                         (stored (js_add Sample.conv
                                    (js_sub Sample.conv (User.balance Sample.admin)
                                            (JNum (of_Z 40)))
                                    (JNum (of_Z 40))))) 0%nat (users Sample.fresh))
               (read_transactions Sample.env_ok Sample.fresh ++ [t]))
  ∧ Tx.senderId t = Some "admin-1"
  ∧ Tx.recipientId t = "admin-1".
Proof.
  intros t.
  assert (Hrun : transfer_run Sample.fresh Sample.admin_to_admin Sample.env_ok 0 0
                   Sample.admin Sample.admin) by closed_run.
  split; [exact Hrun|].
  apply (self_transfer_succeeds Sample.fresh Sample.admin_to_admin Sample.env_ok
           0%nat Sample.admin Hrun); reflexivity.
Defined.

(** ** Account status *)





(** X16.  No request ever sets [status]: in the files reachable from the seed
    every account is active. *)
Lemma reachable_active st :
  reachable st → Forall (λ u, User.status u = "active") (users st).
Proof.
  induction 1 as [created|st st' _ IH Hstep]; [by repeat constructor|].
  destruct (step_users _ _ Hstep)
    as [Hreb|[(rq & a & e & _ & _ & _ & ->)|(i & u & _ & _ & ->)]].
  - eapply rebalanced_Forall; [|exact Hreb|exact IH].
    intros u v Huv Hu. unfold same_but_balance in Huv. destruct_and!. congruence.
  - apply Forall_app. split; [|by repeat constructor].
    unfold read_users, readData. by destruct (users_read_ok e).
  - by apply Forall_delete.
Qed.

Lemma reachable_active_witness :
  reachable Sample.with_alice
  ∧ Forall (λ u, User.status u = "active") (users Sample.with_alice).
Proof.
  assert (Hreach : reachable Sample.with_alice) by reach_with_alice.
  split; [exact Hreach|]. exact (reachable_active _ Hreach).
Defined.

(** Looking an account up by a field other than [status] commutes with
    rewriting the statuses. *)
Lemma find_restatus (P : User.t → Prop) `{!∀ u, Decision (P u)} g us :
  (∀ u, P (restatus g u) ↔ P u) →
  find P (restatus g <$> us) = prod_map id (restatus g) <$> find P us.
Proof.
  intros HP. unfold find. rewrite list_find_fmap. f_equal.
  apply list_find_ext. intros u. apply HP.
Qed.

(** X17.  The transfer handler is blind to [status]: rewriting the statuses
    of the accounts file in any way changes neither the answer nor, statuses
    apart, the files left behind. *)
Lemma send_status_blind g st rq e :
  send (with_statuses g st) rq e
  = ((send st rq e).1, with_statuses g (send st rq e).2).
Proof.
  unfold send, with_statuses, read_users, read_transactions. simpl.
  destruct (_ || _); [done|]. case_bool_decide; [done|].
  destruct (users_read_ok e); simpl; [|done].
  rewrite !find_restatus by done.
  destruct (find _ (users st)) as [[i s]|]; [|done].
  destruct (find (λ u, User.accountNumber u = _) (users st)) as [[j r]|]; [|done].
  simpl. destruct (js_lt _ _ _); [done|].
  assert (Hfile :
    transfer_file (js e) (SendReq.amount rq) i j (restatus g <$> users st)
    = restatus g <$> transfer_file (js e) (SendReq.amount rq) i j (users st)).
  { unfold transfer_file, transfer_memory.
    rewrite (list_fmap_alter (restatus g) stored_user stored_user)
      by by apply Forall_forall.
    rewrite (list_fmap_alter (restatus g) stored_user stored_user)
      by by apply Forall_forall.
    rewrite (list_fmap_alter (restatus g) (credit (js e) (SendReq.amount rq))
               (credit (js e) (SendReq.amount rq))) by by apply Forall_forall.
    by rewrite (list_fmap_alter (restatus g) (debit (js e) (SendReq.amount rq))
                  (debit (js e) (SendReq.amount rq))) by by apply Forall_forall. }
  rewrite Hfile.
  by destruct (users_write_ok e), (transactions_write_ok e).
Qed.

(** ** The authorization code *)

(** A number greater than zero passes the amount check. *)
Lemma positive_amount_ok c x :
  num_ltb (of_Z 0) x = true → bad_amount c (JNum x) = false.
Proof. by destruct x as [[]|[]| |[] m ex]. Qed.

(** C7, as stated, promises the answer for a wrong code to every request with
    a positive amount.  The handler first checks that the sender id and the
    recipient account number are present: without a sender id, a positive
    amount and a wrong code are answered with the validation error. *)
Lemma missing_sender_wrong_code :
  SendReq.amount Sample.no_sender_wrong_code = JNum (of_Z 40)
  ∧ num_ltb (of_Z 0) (of_Z 40) = true
  ∧ SendReq.transactionCode Sample.no_sender_wrong_code ≠ "45242769012"
  ∧ send Sample.with_alice Sample.no_sender_wrong_code Sample.env_ok
    = (mkResponse 400 (Failure "Invalid transaction data"), Sample.with_alice)
  ∧ send Sample.with_alice Sample.no_sender_wrong_code Sample.env_ok
    ≠ (mkResponse 400 (Failure "Invalid transaction code"), Sample.with_alice).
Proof. vm_compute. split_and!; done. Qed.

(** C7, amended.  A transfer request whose amount passes the amount check,
    as every positive number does, and whose code is other than the
    configured one fails with HTTP 400 whatever the files contain and
    whether or not they can be read, and leaves both files as they were: no
    balance changes and no transaction is created.  The answer is "Invalid
    transaction code" when the request names a sender id and a recipient
    account number, and "Invalid transaction data" when one of them is
    missing. *)
Theorem wrong_code_rejected st rq e :
  bad_amount (js e) (SendReq.amount rq) = false →
  SendReq.transactionCode rq ≠ "45242769012" →
  send st rq e =
    (mkResponse 400
       (Failure (if falsy (SendReq.senderId rq)
                    || falsy (SendReq.recipientAccountNumber rq)
                 then "Invalid transaction data"
                 else "Invalid transaction code")),
     st).
Proof.
  intros Hpos Hcode. unfold send.
  destruct (falsy (SendReq.senderId rq)); [done|].
  destruct (falsy (SendReq.recipientAccountNumber rq)); [done|]. simpl.
  rewrite Hpos. by rewrite bool_decide_eq_true_2.
Qed.

Lemma wrong_code_rejected_witness :
  bad_amount (js Sample.env_ok) (SendReq.amount Sample.wrong_code) = false
  ∧ SendReq.transactionCode Sample.wrong_code ≠ "45242769012"
  ∧ send Sample.with_alice Sample.wrong_code Sample.env_ok
    = (mkResponse 400 (Failure "Invalid transaction code"), Sample.with_alice).
Proof.
  split_and!; [reflexivity|discriminate|].
  apply (wrong_code_rejected Sample.with_alice Sample.wrong_code Sample.env_ok);
    [reflexivity|discriminate].
Defined.

(** ** Deleting accounts *)

(** Whatever the request, the entry a delete removes is not an admin: every
    admin entry of the accounts file is still there afterwards. *)
Lemma deleteUser_keeps_admins st id e a :
  a ∈ users st → User.role a = "admin" → a ∈ users (deleteUser st id e).2.
Proof.
  intros Ha Hrole.
  destruct (deleteUser_cases st id e) as [[_ ->]|(i & u & Hf & Hu & _ & ->)]; [done|].
  simpl. apply find_lookup in Hf as [Hi _].
  apply list_elem_of_lookup in Ha as [k Hk].
  assert (k ≠ i) by (intros ->; congruence).
  apply list_elem_of_lookup. destruct (decide (k < i)%nat).
  - exists k. by rewrite list_lookup_delete_lt.
  - exists (pred k). rewrite list_lookup_delete_ge by lia.
    by replace (S (pred k)) with k by lia.
Qed.

(** C8.  A delete request whose id resolves to an account with role admin is
    answered 403 "Cannot delete admin user" and leaves both files as they
    were; and that account is in the accounts file after any delete request
    whatever: an admin account is never deleted. *)
Theorem delete_admin_forbidden st id e i u :
  find (λ u, User.id u = id) (users st) = Some (i, u) →
  User.role u = "admin" →
  deleteUser st id e = (mkResponse 403 (Failure "Cannot delete admin user"), st)
  ∧ ∀ id' e', u ∈ users (deleteUser st id' e').2.
Proof.
  intros Hf Hrole. split.
  - unfold deleteUser. rewrite Hf. by rewrite bool_decide_eq_true_2.
  - intros id' e'. apply deleteUser_keeps_admins; [|done].
    apply find_lookup in Hf as [Hi _]. by eapply list_elem_of_lookup_2.
Qed.

Lemma delete_admin_forbidden_witness :
  deleteUser Sample.with_alice "admin-1" Sample.env_ok
  = (mkResponse 403 (Failure "Cannot delete admin user"), Sample.with_alice)
  ∧ ∀ id' e', Sample.admin ∈ users (deleteUser Sample.with_alice id' e').2.
Proof.
  apply (delete_admin_forbidden Sample.with_alice "admin-1" Sample.env_ok
           0%nat Sample.admin); vm_compute; reflexivity.
Defined.

(** ** Invariants of the reachable files *)

(** C2 asks for every balance to stay at or above 0, and both ledger
    operations check the amount before they use it.  The check,
    [!amount || amount <= 0], lets through values that are not positive
    numbers.  A funding whose amount is the JSON value [true] passes it
    ([true <= 0] is false), [Number.parseFloat(true)] is [NaN], the balance
    becomes [0 + NaN], and the request is answered 200; the accounts file
    then holds [null] where the balance was. *)
Lemma fund_true_breaks_balance :
  reachable Sample.with_alice
  ∧ bad_amount Sample.conv (JBool true) = false
  ∧ js_add Sample.conv (JNum (of_Z 0)) (JNum (parseFloat Sample.conv (JBool true)))
    = JNum NaN
  ∧ success (fund Sample.with_alice Sample.fund_alice_true Sample.env_ok).1 = true
  ∧ User.balance <$> users (fund Sample.with_alice Sample.fund_alice_true
                                 Sample.env_ok).2
    = [JNum (of_Z 500000000); JNull].
Proof. split_and!; [reach_with_alice|vm_compute; reflexivity..]. Qed.




(** ** Write failures *)

(** C3, as stated, promises that nothing of an operation is observable once
    one of its writes has failed.  The handlers write the accounts file
    first and the transactions file second, and never restore the first
    when the second fails: a transfer, and a funding, answered 500 whose new
    balances are in the accounts file while the log has no entry for them. *)
Lemma partial_commit_observable :
  send Sample.with_alice Sample.admin_to_alice Sample.env_tx_fails
  = (mkResponse 500 (Failure "Failed to process transaction"),
     mkState [User.set_balance (JNum (of_Z 499999960)) Sample.admin;
              User.set_balance (JNum (of_Z 40)) Sample.alice] [])
  ∧ fund Sample.with_alice Sample.fund_alice Sample.env_tx_fails
    = (mkResponse 500 (Failure "Failed to fund user"),
       mkState [Sample.admin; User.set_balance (JNum (of_Z 500)) Sample.alice] [])
  ∧ JNum (of_Z 499999960) ≠ User.balance Sample.admin
  ∧ JNum (of_Z 500) ≠ User.balance Sample.alice.
Proof. vm_compute. split_and!; done. Qed.

(** C3, amended.  When a write of a transfer or of a funding fails, the
    request is answered 500 and the transaction log is left as it was.  If
    the write that fails is that of the accounts file, the accounts file is
    left as it was too, and nothing of the operation is observable.  If the
    accounts file is written and the write of the transactions file fails,
    the accounts file holds the new balances: the balance change is not
    taken back. *)
Theorem write_failure_outcome st e :
  users_write_ok e = false ∨ transactions_write_ok e = false →
  (∀ rq i j s r, transfer_run st rq e i j s r →
     ∃ st', send st rq e
            = (mkResponse 500 (Failure "Failed to process transaction"), st')
       ∧ transactions st' = transactions st
       ∧ (users_write_ok e = false → users st' = users st)
       ∧ (users_write_ok e = true →
          users st' = transfer_file (js e) (SendReq.amount rq) i j (users st)))
  ∧ (∀ rq j admin user, fund_run st rq e j admin user →
     ∃ st', fund st rq e = (mkResponse 500 (Failure "Failed to fund user"), st')
       ∧ transactions st' = transactions st
       ∧ (users_write_ok e = false → users st' = users st)
       ∧ (users_write_ok e = true →
          users st' = fund_file (js e) (FundReq.amount rq) j (users st))).
Proof.
  intros Hfail. split.
  - intros rq i j s r Hrun. rewrite (send_run _ _ e _ _ _ _ Hrun).
    destruct (users_write_ok e), (transactions_write_ok e);
      try (destruct Hfail; discriminate); eexists; split_and!; done.
  - intros rq j admin user Hrun. rewrite (fund_run_eq _ _ e _ _ _ Hrun).
    destruct (users_write_ok e), (transactions_write_ok e);
      try (destruct Hfail; discriminate); eexists; split_and!; done.
Qed.

Lemma write_failure_outcome_witness :
  (users_write_ok Sample.env_users_fail = false
   ∨ transactions_write_ok Sample.env_users_fail = false)
  ∧ ∃ st', send Sample.with_alice Sample.admin_to_alice Sample.env_users_fail
           = (mkResponse 500 (Failure "Failed to process transaction"), st')
      ∧ transactions st' = transactions Sample.with_alice
      ∧ (users_write_ok Sample.env_users_fail = false →
         users st' = users Sample.with_alice)
      ∧ (users_write_ok Sample.env_users_fail = true →
         users st' = transfer_file Sample.conv (JNum (of_Z 40)) 0%nat 1%nat
                       (users Sample.with_alice)).
Proof.
  split; [left; reflexivity|].
  apply (proj1 (write_failure_outcome Sample.with_alice Sample.env_users_fail
                  (or_introl eq_refl))
           Sample.admin_to_alice 0%nat 1%nat Sample.admin Sample.alice).
  closed_run.
Defined.

(** ** Funding *)

(** C5, as stated, names the type of the appended transaction "mint".  The
    object built by the funding handler has type "admin-fund". *)
Lemma fund_type_not_mint :
  let t := stored_tx (fundTx Sample.fund_alice Sample.admin Sample.alice
                             Sample.env_ok) in
  fund Sample.with_alice Sample.fund_alice Sample.env_ok
  = (mkResponse 200 (TxBody t),
     mkState [Sample.admin; User.set_balance (JNum (of_Z 500)) Sample.alice] [t])
  ∧ Tx.type t = "admin-fund"
  ∧ Tx.type t ≠ "mint"
  ∧ Tx.type t ≠ "transfer".
Proof. vm_compute. split_and!; done. Qed.

(** C5, amended.  Every funding that succeeds adds exactly one transaction
    after the log entries that were read; its type is "admin-fund", it has no
    [senderId] and names the admin in [adminId] and [adminName] instead, and
    its amount is [Number.parseFloat(amount)].  The account resolved by the
    account number is credited: its balance becomes
    [balance + Number.parseFloat(amount)] as the language computes it and as
    it comes back from the file; every other account is left as it was. *)
Theorem fund_appends_admin_fund st rq e resp st' :
  fund st rq e = (resp, st') →
  success resp = true →
  ∃ t j user k admin,
    resp = mkResponse 200 (TxBody t)
    ∧ transactions st' = read_transactions e st ++ [t]
    ∧ Tx.type t = "admin-fund"
    ∧ Tx.senderId t = None
    ∧ find (λ u, User.id u = FundReq.adminId rq ∧ User.role u = "admin") (users st)
      = Some (k, admin)
    ∧ Tx.adminId t = Some (FundReq.adminId rq)
    ∧ Tx.adminName t = Some (User.name admin)
    ∧ Tx.amount t = stored (JNum (parseFloat (js e) (FundReq.amount rq)))
    ∧ Tx.recipientId t = User.id user
    ∧ find (λ u, User.accountNumber u = FundReq.accountNumber rq) (users st)
      = Some (j, user)
    ∧ users st' !! j
      = Some (User.set_balance
                (stored (js_add (js e) (User.balance user)
                           (JNum (parseFloat (js e) (FundReq.amount rq))))) user)
    ∧ ∀ m, m ≠ j → users st' !! m = users st !! m.
Proof.
  intros Hfund Hok.
  destruct (fund_success _ _ _ _ _ Hfund Hok)
    as (j & admin & user & Hrun & _ & _ & -> & ->).
  pose proof (fund_run_read _ _ _ _ _ _ Hrun) as Hread.
  destruct Hrun as [_ _ [k Hadm] Huser]. rewrite Hread in *.
  exists (stored_tx (fundTx rq admin user e)), j, user, k, admin.
  split_and!; try done.
  - simpl. unfold fund_file. apply find_lookup in Huser as [Huser _].
    rewrite !list_lookup_alter_eq, Huser. simpl. by destruct user.
  - intros m Hm. simpl. unfold fund_file. by rewrite !list_lookup_alter_ne.
Qed.

Lemma fund_appends_admin_fund_witness :
  let out := fund Sample.with_alice Sample.fund_alice Sample.env_ok in
  success out.1 = true
  ∧ ∃ t j user k admin,
      out.1 = mkResponse 200 (TxBody t)
      ∧ transactions out.2 = read_transactions Sample.env_ok Sample.with_alice ++ [t]
      ∧ Tx.type t = "admin-fund"
      ∧ Tx.senderId t = None
      ∧ find (λ u, User.id u = "admin-1" ∧ User.role u = "admin")
             (users Sample.with_alice) = Some (k, admin)
      ∧ Tx.adminId t = Some "admin-1"
      ∧ Tx.adminName t = Some (User.name admin)
      ∧ Tx.amount t = stored (JNum (parseFloat Sample.conv (JNum (of_Z 500))))
      ∧ Tx.recipientId t = User.id user
      ∧ find (λ u, User.accountNumber u = "1234567890") (users Sample.with_alice)
        = Some (j, user)
      ∧ users out.2 !! j
        = Some (User.set_balance
                  (stored (js_add Sample.conv (User.balance user)
                             (JNum (parseFloat Sample.conv (JNum (of_Z 500))))))
                  user)
      ∧ ∀ m, m ≠ j → users out.2 !! m = users Sample.with_alice !! m.
Proof.
  intros out. split; [vm_compute; reflexivity|].
  apply (fund_appends_admin_fund Sample.with_alice Sample.fund_alice Sample.env_ok
           out.1 out.2); vm_compute; reflexivity.
Defined.

(** ** The money in the accounts file *)

Lemma total_delete w us i x :
  us !! i = Some x → total w (delete i us) = total w us - w (User.balance x).
Proof.
  revert i. induction us as [|u us IH]; intros [|i] Hi; simplify_eq/=.
  - lia.
  - rewrite (IH _ Hi). lia.
Qed.

(** X3.  A delete request that succeeds removes exactly one entry of the
    accounts file, the first one with the requested id, which is not an
    admin; the other entries keep their order and content, and the
    transaction log is not touched.  The balance of the removed account
    leaves the ledger: however balances are valued, the sum over the
    accounts file drops by the value of that balance. *)
Theorem delete_removes_one st id e resp st' :
  deleteUser st id e = (resp, st') →
  success resp = true →
  ∃ i u,
    find (λ u, User.id u = id) (users st) = Some (i, u)
    ∧ User.role u ≠ "admin"
    ∧ users st = take i (users st) ++ u :: drop (S i) (users st)
    ∧ users st' = take i (users st) ++ drop (S i) (users st)
    ∧ transactions st' = transactions st
    ∧ ∀ w, total w (users st') = total w (users st) - w (User.balance u).
Proof.
  intros Hdel Hok.
  destruct (deleteUser_cases st id e) as [[Hfail _]|(i & u & Hf & Hrole & _ & Heq)].
  { rewrite Hdel in Hfail. simpl in Hfail. congruence. }
  rewrite Hdel in Heq. simplify_eq. exists i, u.
  pose proof (find_lookup _ _ _ _ Hf) as [Hi _].
  split_and!; try done.
  - by rewrite take_drop_middle.
  - simpl. apply delete_take_drop.
  - intros w. simpl. by apply total_delete.
Qed.

Lemma delete_removes_one_witness :
  success (deleteUser Sample.with_alice "user-0001" Sample.env_ok).1 = true
  ∧ ∃ i u,
      find (λ u, User.id u = "user-0001") (users Sample.with_alice) = Some (i, u)
      ∧ User.role u ≠ "admin"
      ∧ users Sample.with_alice
        = take i (users Sample.with_alice) ++ u :: drop (S i) (users Sample.with_alice)
      ∧ users (deleteUser Sample.with_alice "user-0001" Sample.env_ok).2
        = take i (users Sample.with_alice) ++ drop (S i) (users Sample.with_alice)
      ∧ transactions (deleteUser Sample.with_alice "user-0001" Sample.env_ok).2
        = transactions Sample.with_alice
      ∧ ∀ w, total w (users (deleteUser Sample.with_alice "user-0001"
                                        Sample.env_ok).2)
             = total w (users Sample.with_alice) - w (User.balance u).
Proof.
  split; [vm_compute; reflexivity|].
  apply (delete_removes_one Sample.with_alice "user-0001" Sample.env_ok
           (deleteUser Sample.with_alice "user-0001" Sample.env_ok).1);
    vm_compute; reflexivity.
Defined.

(** ** Logging in *)




(** Two accounts of a list without repeated e-mail addresses that have the
    same e-mail address are the same account. *)
Lemma NoDup_fmap_eq {A B} (f : A → B) (l : list A) x y :
  NoDup (f <$> l) → x ∈ l → y ∈ l → f x = f y → x = y.
Proof.
  intros Hnd [i Hi]%list_elem_of_lookup [j Hj]%list_elem_of_lookup Hxy.
  assert (i = j) as ->; [|congruence].
  eapply (NoDup_lookup _ i j (f x) Hnd); rewrite list_lookup_fmap.
  - by rewrite Hi.
  - rewrite Hj. simpl. by rewrite Hxy.
Qed.




(** X6.  In the accounts file that a successful delete leaves, in a state
    reachable from the seed, the e-mail address of the deleted account logs
    nobody in, whatever the password.  The statement is about the file as
    the delete leaves it, not about what later registrations make of it. *)
Theorem deleted_cannot_login st id e resp st' i u password :
  reachable st →
  deleteUser st id e = (resp, st') →
  success resp = true →
  find (λ u, User.id u = id) (users st) = Some (i, u) →
  success (login st' (User.email u) password) = false.
Proof.
  intros Hreach Hdel Hok Hf.
  destruct (deleteUser_cases st id e) as [[Hfail _]|(i' & u' & Hf' & _ & _ & Heq)].
  { rewrite Hdel in Hfail. simpl in Hfail. congruence. }
  rewrite Hdel in Heq. simplify_eq.
  apply find_lookup in Hf as [Hi _].
  destruct (reachable_unique _ Hreach) as [_ Hnd].
  rewrite <- (take_drop_middle _ _ _ Hi), fmap_app, fmap_cons in Hnd.
  apply NoDup_app in Hnd as (_ & Hleft & [Hright _]%NoDup_cons).
  unfold login. destruct (falsy _ || falsy _); [done|].
  destruct (find _ _) as [[k v]|] eqn:Hfind; [|done]. exfalso.
  apply find_lookup in Hfind as (Hk & Hem & _). simpl in Hk.
  apply list_elem_of_lookup_2 in Hk. rewrite delete_take_drop in Hk.
  apply elem_of_app in Hk as [Hk|Hk].
  - apply (Hleft (User.email u)); [|by left].
    apply list_elem_of_fmap. by exists v.
  - apply Hright. apply list_elem_of_fmap. by exists v.
Qed.

Lemma deleted_cannot_login_witness :
  reachable Sample.with_alice
  ∧ success (deleteUser Sample.with_alice "user-0001" Sample.env_ok).1 = true
  ∧ success (login (deleteUser Sample.with_alice "user-0001" Sample.env_ok).2
                   "alice@example.com" "secret") = false.
Proof.
  assert (Hreach : reachable Sample.with_alice) by reach_with_alice.
  split_and!; [exact Hreach|vm_compute; reflexivity|].
  apply (deleted_cannot_login Sample.with_alice "user-0001" Sample.env_ok
           (deleteUser Sample.with_alice "user-0001" Sample.env_ok).1
           (deleteUser Sample.with_alice "user-0001" Sample.env_ok).2
           1%nat Sample.alice "secret" Hreach); vm_compute; reflexivity.
Defined.

(** ** The admin account *)

Lemma reachable_admins st :
  reachable st →
  Forall (λ u, User.role u = "admin" → is_seed_admin u) (users st).
Proof.
  induction 1 as [created|st st' _ IH Hstep]; [by repeat constructor|].
  destruct (step_users _ _ Hstep)
    as [Hreb|[(rq & a & e & _ & _ & _ & ->)|(i & u & _ & _ & ->)]].
  - eapply rebalanced_Forall; [|exact Hreb|exact IH].
    intros u v Huv Hu Hrole. unfold same_but_balance, is_seed_admin in *.
    destruct_and!. destruct Hu as (? & ? & ? & ? & ?); [congruence|].
    split_and!; congruence.
  - apply Forall_app. split.
    + unfold read_users, readData. by destruct (users_read_ok e).
    + by apply Forall_singleton.
  - by apply Forall_delete.
Qed.

(** X7.  In every accounts file reachable from the seed, an account with role
    admin is the seeded account, up to its balance (id "admin-1", e-mail
    address "admin@example.com", account number "9876543210"), and there is
    at most one such entry: no request creates an admin or changes one
    otherwise than in its balance. *)
Theorem admin_is_seeded st :
  reachable st →
  (∀ u, u ∈ users st → User.role u = "admin" → is_seed_admin u)
  ∧ ∀ u v, u ∈ users st → v ∈ users st →
      User.role u = "admin" → User.role v = "admin" → u = v.
Proof.
  intros Hreach. pose proof (reachable_admins _ Hreach) as Hadm.
  rewrite Forall_forall in Hadm. split; [exact Hadm|].
  intros u v Hu Hv Hru Hrv.
  destruct (reachable_unique _ Hreach) as [_ Hnd].
  apply (NoDup_fmap_eq _ _ _ _ Hnd Hu Hv).
  destruct (Hadm u Hu Hru) as (_ & _ & -> & _).
  by destruct (Hadm v Hv Hrv) as (_ & _ & -> & _).
Qed.

Lemma admin_is_seeded_witness :
  reachable Sample.with_alice
  ∧ (∀ u, u ∈ users Sample.with_alice → User.role u = "admin" → is_seed_admin u)
  ∧ ∀ u v, u ∈ users Sample.with_alice → v ∈ users Sample.with_alice →
      User.role u = "admin" → User.role v = "admin" → u = v.
Proof.
  assert (Hreach : reachable Sample.with_alice) by reach_with_alice.
  split; [exact Hreach|]. exact (admin_is_seeded _ Hreach).
Defined.

(** X8.  In an accounts file reachable from the seed, a funding request whose
    [adminId] is not "admin-1" changes nothing: it is refused and both files
    are left as they were. *)
Theorem fund_needs_seed_admin st rq e :
  reachable st →
  FundReq.adminId rq ≠ "admin-1" →
  success (fund st rq e).1 = false ∧ (fund st rq e).2 = st.
Proof.
  intros Hreach Hid. pose proof (reachable_admins _ Hreach) as Hadm.
  rewrite Forall_forall in Hadm.
  destruct (fund_cases st rq e) as [Hfail|(j & admin & user & Hrun & _)]; [done|].
  exfalso. destruct Hrun as [_ _ [k Hfind] _].
  apply find_lookup in Hfind as (Hk & Hidk & Hrole).
  apply list_elem_of_lookup_2, read_users_sub in Hk.
  destruct (Hadm admin Hk Hrole) as [Hseed _]. congruence.
Qed.

Lemma fund_needs_seed_admin_witness :
  let rq := FundReq.mk "user-0001" "1234567890" (JNum (of_Z 500)) None in
  reachable Sample.with_alice
  ∧ FundReq.adminId rq ≠ "admin-1"
  ∧ success (fund Sample.with_alice rq Sample.env_ok).1 = false
  ∧ (fund Sample.with_alice rq Sample.env_ok).2 = Sample.with_alice.
Proof.
  intros rq.
  assert (Hreach : reachable Sample.with_alice) by reach_with_alice.
  assert (Hid : FundReq.adminId rq ≠ "admin-1") by discriminate.
  split_and!; [exact Hreach|exact Hid|..];
    apply (fund_needs_seed_admin Sample.with_alice rq Sample.env_ok Hreach Hid).
Defined.

(** ** The transaction log *)

Lemma well_formed_stored t : well_formed_tx t → well_formed_tx (stored_tx t).
Proof. by destruct t. Qed.

Lemma send_log st rq e r st' :
  send st rq e = (r, st') →
  transactions st' = transactions st
  ∨ ∃ t, transactions st' = read_transactions e st ++ [t] ∧ well_formed_tx t.
Proof.
  intros H. destruct (send_cases st rq e) as [[_ Heq]|(i & j & s & r' & _ & Hcase)].
  { rewrite H in Heq. simplify_eq/=. by left. }
  simpl in Hcase. destruct Hcase as [(_ & _ & Heq)|[(_ & _ & Heq)|(_ & Heq)]];
    rewrite H in Heq; simplify_eq/=; [|by left..].
  right. eexists. split; [done|]. split; [done|]. left. by split_and!.
Qed.

Lemma fund_log st rq e r st' :
  fund st rq e = (r, st') →
  transactions st' = transactions st
  ∨ ∃ t, transactions st' = read_transactions e st ++ [t] ∧ well_formed_tx t.
Proof.
  intros H. destruct (fund_cases st rq e) as [[_ Heq]|(j & admin & user & _ & Hcase)].
  { rewrite H in Heq. simplify_eq/=. by left. }
  simpl in Hcase. destruct Hcase as [(_ & _ & Heq)|[(_ & _ & Heq)|(_ & Heq)]];
    rewrite H in Heq; simplify_eq/=; [|by left..].
  right. eexists. split; [done|]. split; [done|]. right. by split_and!.
Qed.

Lemma register_log st rq e r st' :
  register st rq e = Some (r, st') → transactions st' = transactions st.
Proof.
  intros H. by apply register_cases in H as [[_ ->]|(a & _ & _ & _ & _ & _ & ->)].
Qed.

Lemma deleteUser_log st id e : transactions (deleteUser st id e).2 = transactions st.
Proof.
  by destruct (deleteUser_cases st id e) as [[_ ->]|(i & u & _ & _ & _ & ->)].
Qed.

(** X9.  As long as [transactions.json] can be read, the log is append-only:
    whatever requests are served, in whatever order and with whatever
    outcome, the transactions already in the log stay where they are,
    unchanged; requests only add entries after them. *)
Theorem log_append_only st st' :
  log_read_steps st st' → transactions st `prefix_of` transactions st'.
Proof.
  induction 1 as [st|st st' st'' _ IH Hstep]; [done|].
  etrans; [exact IH|].
  destruct Hstep as [st' rq e r st'' H|st' id e r st'' H
                    |st' rq e r st'' Hlog H|st' rq e r st'' Hlog H].
  - by rewrite (register_log _ _ _ _ _ H).
  - pose proof (deleteUser_log st' id e) as Heq. rewrite H in Heq. simpl in Heq.
    by rewrite Heq.
  - destruct (send_log _ _ _ _ _ H) as [->|(t & -> & _)]; [done|].
    unfold read_transactions, readData. rewrite Hlog. by apply prefix_app_r.
  - destruct (fund_log _ _ _ _ _ H) as [->|(t & -> & _)]; [done|].
    unfold read_transactions, readData. rewrite Hlog. by apply prefix_app_r.
Qed.

Lemma log_append_only_witness :
  log_read_steps Sample.with_alice Sample.after_transfer
  ∧ transactions Sample.with_alice `prefix_of` transactions Sample.after_transfer.
Proof.
  assert (Hsteps : log_read_steps Sample.with_alice Sample.after_transfer).
  { apply (log_read_more _ Sample.with_alice); [apply log_read_refl|].
    apply (log_read_send _ Sample.admin_to_alice Sample.env_ok
             (send Sample.with_alice Sample.admin_to_alice Sample.env_ok).1);
      vm_compute; reflexivity. }
  split; [exact Hsteps|]. exact (log_append_only _ _ Hsteps).
Defined.

(** X10.  Every transaction in a log reachable from the seed has status
    "completed" and is either a transfer that names its sender and no admin,
    or an admin funding that names its admin and no sender. *)
Theorem log_well_formed st :
  reachable st → Forall well_formed_tx (transactions st).
Proof.
  induction 1 as [created|st st' _ IH Hstep]; [constructor|].
  assert (Hread : ∀ e, Forall well_formed_tx (read_transactions e st)).
  { intros e. unfold read_transactions, readData.
    by destruct (transactions_read_ok e). }
  destruct Hstep as [st rq e r st' H|st id e r st' H|st rq e r st' H|st rq e r st' H].
  - by rewrite (register_log _ _ _ _ _ H).
  - pose proof (deleteUser_log st id e) as Heq. rewrite H in Heq. simpl in Heq.
    by rewrite Heq.
  - destruct (send_log _ _ _ _ _ H) as [->|(t & -> & Ht)]; [done|].
    apply Forall_app. split; [apply Hread|by apply Forall_singleton].
  - destruct (fund_log _ _ _ _ _ H) as [->|(t & -> & Ht)]; [done|].
    apply Forall_app. split; [apply Hread|by apply Forall_singleton].
Qed.

Lemma log_well_formed_witness :
  reachable Sample.after_transfer
  ∧ Forall well_formed_tx (transactions Sample.after_transfer).
Proof.
  assert (Hreach : reachable Sample.after_transfer) by reach_after_transfer.
  split; [exact Hreach|]. exact (log_well_formed _ Hreach).
Defined.

(** ** Transaction histories *)






(** ** Account numbers *)

Lemma pretty_N_char_digit d : is_digit (pretty_N_char d).
Proof.
  unfold pretty_N_char, is_digit.
  repeat case_match; split; apply Nat.leb_le; reflexivity.
Qed.

(** Printing a number of [k + 1] decimal digits in front of [s]. *)
Lemma pretty_N_go_digits (k : nat) x s :
  (10 ^ N.of_nat k ≤ x < 10 ^ N.of_nat (S k))%N →
  String.length (pretty_N_go x s) = (S k + String.length s)%nat
  ∧ (Forall is_digit (String.list_ascii_of_string s) →
     Forall is_digit (String.list_ascii_of_string (pretty_N_go x s))).
Proof.
  revert x s. induction k as [|k IH]; intros x s Hx.
  - change (10 ^ N.of_nat 0)%N with 1%N in Hx.
    change (10 ^ N.of_nat 1)%N with 10%N in Hx.
    rewrite pretty_N_go_step by lia.
    rewrite (N.div_small x 10) by lia. rewrite pretty_N_go_0. simpl.
    split; [done|]. intros Hs. constructor; [apply pretty_N_char_digit|done].
  - rewrite !Nat2N.inj_succ, !N.pow_succ_r' in Hx.
    assert (0 < 10 ^ N.of_nat k)%N by (apply N.neq_0_lt_0, N.pow_nonzero; lia).
    rewrite pretty_N_go_step by lia.
    destruct (IH (x `div` 10)%N (String (pretty_N_char (x `mod` 10)) s))
      as [Hlen Hdig].
    { rewrite Nat2N.inj_succ, N.pow_succ_r'. split.
      - apply N.div_le_lower_bound; lia.
      - apply N.Div0.div_lt_upper_bound; lia. }
    split.
    + rewrite Hlen. simpl. lia.
    + intros Hs. apply Hdig. simpl. constructor; [apply pretty_N_char_digit|done].
Qed.

Lemma generateAccountNumber_digits n :
  in_range n →
  String.length (generateAccountNumber n) = 10%nat
  ∧ Forall is_digit (String.list_ascii_of_string (generateAccountNumber n)).
Proof.
  intros [Hlo Hhi]. destruct n as [|p|p]; try lia.
  unfold generateAccountNumber, pretty, pretty_Z, pretty, pretty_positive,
    pretty, pretty_N.
  rewrite decide_False by done.
  destruct (pretty_N_go_digits 9 (N.pos p) EmptyString) as [Hlen Hdig].
  { change (10 ^ N.of_nat 9)%N with 1000000000%N.
    change (10 ^ N.of_nat 10)%N with 10000000000%N. lia. }
  split; [by rewrite Hlen|]. apply Hdig. constructor.
Qed.

Lemma allocate_drawn us ds a :
  allocate us ds = Some a → ∃ n, n ∈ ds ∧ a = generateAccountNumber n.
Proof.
  induction ds as [|n ds IH]; simpl; [done|].
  destruct (some _ us).
  - intros (m & Hm & ->)%IH. exists m. split; [by right|done].
  - intros [= <-]. exists n. split; [by left|done].
Qed.

(** X13.  A registration that succeeds while [users.json] can be read appends
    one account to the accounts file and leaves the rest of both files as it
    was.  The new account carries the e-mail address and password of the
    request, has role "user", status "active" and balance 0, and is sent
    back without its password.  When the numbers drawn lie in the range of
    the generator, its account number is a string of exactly ten decimal
    digits. *)
Theorem register_creates_user st rq e resp st' :
  register st rq e = Some (resp, st') →
  success resp = true →
  users_read_ok e = true →
  Forall in_range (draws e) →
  ∃ nu,
    users st' = users st ++ [nu]
    ∧ transactions st' = transactions st
    ∧ resp = mkResponse 201 (UserBody (withoutPassword nu))
    ∧ User.email nu = RegisterReq.email rq
    ∧ User.password nu = RegisterReq.password rq
    ∧ User.role nu = "user"
    ∧ User.status nu = "active"
    ∧ User.balance nu = JNum (of_Z 0)
    ∧ String.length (User.accountNumber nu) = 10%nat
    ∧ Forall is_digit (String.list_ascii_of_string (User.accountNumber nu)).
Proof.
  intros Hreg Hok Hread Hdraws.
  apply register_cases in Hreg as [[Hfail _]|(a & Ha & _ & _ & _ & -> & ->)];
    [congruence|].
  apply allocate_drawn in Ha as (n & Hn & ->).
  rewrite Forall_forall in Hdraws.
  destruct (generateAccountNumber_digits n (Hdraws n Hn)) as [Hlen Hdig].
  unfold read_users, readData. rewrite Hread.
  eexists. split_and!; [done..|exact Hlen|exact Hdig].
Qed.

Lemma register_creates_user_witness :
  let out := (mkResponse 201 (UserBody (withoutPassword Sample.alice)),
              Sample.with_alice) in
  register Sample.fresh Sample.register_alice Sample.env_ok = Some out
  ∧ users_read_ok Sample.env_ok = true
  ∧ Forall in_range (draws Sample.env_ok)
  ∧ ∃ nu,
      users out.2 = users Sample.fresh ++ [nu]
      ∧ transactions out.2 = transactions Sample.fresh
      ∧ out.1 = mkResponse 201 (UserBody (withoutPassword nu))
      ∧ User.email nu = "alice@example.com"
      ∧ User.password nu = "secret"
      ∧ User.role nu = "user"
      ∧ User.status nu = "active"
      ∧ User.balance nu = JNum (of_Z 0)
      ∧ String.length (User.accountNumber nu) = 10%nat
      ∧ Forall is_digit (String.list_ascii_of_string (User.accountNumber nu)).
Proof.
  intros out.
  assert (Hdraws : Forall in_range (draws Sample.env_ok)).
  { repeat constructor; vm_compute; discriminate. }
  split_and!; [vm_compute; reflexivity|reflexivity|exact Hdraws|].
  apply (register_creates_user Sample.fresh Sample.register_alice Sample.env_ok
           out.1 out.2);
    [vm_compute; reflexivity|reflexivity|reflexivity|exact Hdraws].
Defined.

(** X14.  The loop leaves at the first draw that is free, however many
    collide before it. *)
Lemma allocate_terminates us ds1 n ds2 :
  (∀ m, m ∈ ds1 → ∃ u, u ∈ us ∧ User.accountNumber u = generateAccountNumber m) →
  (∀ u, u ∈ us → User.accountNumber u ≠ generateAccountNumber n) →
  allocate us (ds1 ++ n :: ds2) = Some (generateAccountNumber n).
Proof.
  intros Hcol Hfree. induction ds1 as [|m ds1 IH]; simpl.
  - by rewrite (proj2 (some_false _ us) Hfree).
  - destruct (some _ us) eqn:Hs.
    + apply IH. intros m' Hm'. apply Hcol. by right.
    + exfalso. destruct (Hcol m) as (u & Hu & Hacc); [by left|].
      by eapply (proj1 (some_false _ us) Hs u Hu).
Qed.

Lemma allocate_terminates_witness :
  (∀ m, m ∈ [9876543210] →
     ∃ u, u ∈ users Sample.fresh
          ∧ User.accountNumber u = generateAccountNumber m)
  ∧ (∀ u, u ∈ users Sample.fresh →
       User.accountNumber u ≠ generateAccountNumber 1234567890)
  ∧ allocate (users Sample.fresh) ([9876543210] ++ 1234567890 :: [5])
    = Some (generateAccountNumber 1234567890).
Proof.
  assert (Hcol : ∀ m, m ∈ [9876543210] →
            ∃ u, u ∈ users Sample.fresh
                 ∧ User.accountNumber u = generateAccountNumber m).
  { intros m Hm. apply list_elem_of_singleton in Hm as ->.
    exists Sample.admin. split; [by left|vm_compute; reflexivity]. }
  assert (Hfree : ∀ u, u ∈ users Sample.fresh →
            User.accountNumber u ≠ generateAccountNumber 1234567890).
  { intros u Hu. apply list_elem_of_singleton in Hu as ->.
    vm_compute. discriminate. }
  split_and!; [exact Hcol|exact Hfree|].
  exact (allocate_terminates (users Sample.fresh) [9876543210] 1234567890 [5]
           Hcol Hfree).
Defined.



(** ** When the two ledger operations are accepted *)

(** X18.  A transfer is accepted exactly when the sender id and the recipient
    account number are given, the amount passes the amount check
    ([!amount || amount <= 0] is false), the code is the configured one,
    both accounts are found in the accounts file as read, the funds check
    passes ([sender.balance < amount] is false), and both files are written.
    Nothing else is looked at. *)
Theorem send_accepts_iff st rq e :
  success (send st rq e).1 = true
  ↔ (∃ i j s r, transfer_run st rq e i j s r)
    ∧ users_write_ok e = true ∧ transactions_write_ok e = true.
Proof.
  split.
  - intros Hok. destruct (send st rq e) as [resp st'] eqn:Hsend.
    destruct (send_success _ _ _ _ _ Hsend Hok) as (i & j & s & r & Hrun & ? & ? & _).
    split_and!; [by exists i, j, s, r|done..].
  - intros ((i & j & s & r & Hrun) & Hu & Ht).
    by rewrite (send_run _ _ e _ _ _ _ Hrun), Hu, Ht.
Qed.

(** X19.  A funding is accepted exactly when the admin id and the account
    number are given, the amount passes the amount check
    ([!amount || amount <= 0] is false), the admin id is that of an account
    with role admin and the account number is that of an account in the
    accounts file as read, and both files are written. *)
Theorem fund_accepts_iff st rq e :
  success (fund st rq e).1 = true
  ↔ (∃ j admin user, fund_run st rq e j admin user)
    ∧ users_write_ok e = true ∧ transactions_write_ok e = true.
Proof.
  split.
  - intros Hok. destruct (fund st rq e) as [resp st'] eqn:Hfund.
    destruct (fund_success _ _ _ _ _ Hfund Hok)
      as (j & admin & user & Hrun & ? & ? & _).
    split_and!; [by exists j, admin, user|done..].
  - intros ((j & admin & user & Hrun) & Hu & Ht).
    by rewrite (fund_run_eq _ _ e _ _ _ Hrun), Hu, Ht.
Qed.

(** ** Deleted accounts *)

(** After a delete that succeeds in a reachable accounts file, no account
    has the account number of the deleted one. *)
Lemma deleted_number_gone st id i u :
  reachable st →
  find (λ u, User.id u = id) (users st) = Some (i, u) →
  ∀ v, v ∈ delete i (users st) → User.accountNumber v ≠ User.accountNumber u.
Proof.
  intros Hreach Hf v Hv Heq.
  apply find_lookup in Hf as [Hi _].
  destruct (reachable_unique _ Hreach) as [Hnd _].
  rewrite <- (take_drop_middle _ _ _ Hi), fmap_app, fmap_cons in Hnd.
  apply NoDup_app in Hnd as (_ & Hleft & [Hright _]%NoDup_cons).
  rewrite delete_take_drop in Hv. apply elem_of_app in Hv as [Hv|Hv].
  - apply (Hleft (User.accountNumber u)); [|by left].
    apply list_elem_of_fmap. by exists v.
  - apply Hright. apply list_elem_of_fmap. by exists v.
Qed.

(** X20.  On the files that a successful delete leaves, in a state reachable
    from the seed, every transfer and every funding addressed to the account
    number of the deleted account is refused, and leaves both files as they
    are.  The statement is about the files as the delete leaves them, not
    about what later registrations make of them. *)
Theorem deleted_cannot_receive st id e resp st' i u :
  reachable st →
  deleteUser st id e = (resp, st') →
  success resp = true →
  find (λ u, User.id u = id) (users st) = Some (i, u) →
  (∀ rq e', SendReq.recipientAccountNumber rq = User.accountNumber u →
     success (send st' rq e').1 = false ∧ (send st' rq e').2 = st')
  ∧ (∀ rq e', FundReq.accountNumber rq = User.accountNumber u →
       success (fund st' rq e').1 = false ∧ (fund st' rq e').2 = st').
Proof.
  intros Hreach Hdel Hok Hf.
  destruct (deleteUser_cases st id e) as [[Hfail _]|(i' & u' & Hf' & _ & _ & Heq)].
  { rewrite Hdel in Hfail. simpl in Hfail. congruence. }
  rewrite Hdel in Heq. simplify_eq.
  pose proof (deleted_number_gone _ _ _ _ Hreach Hf) as Hgone.
  split; intros rq e' Hto.
  - destruct (send_cases (mkState (delete i (users st)) (transactions st)) rq e')
      as [Hfail|(k & j & s & r & Hrun & _)]; [done|].
    exfalso. destruct Hrun as [_ _ _ _ Hr _].
    apply find_lookup in Hr as [Hj Hacc].
    apply list_elem_of_lookup_2, read_users_sub in Hj.
    apply (Hgone r Hj). congruence.
  - destruct (fund_cases (mkState (delete i (users st)) (transactions st)) rq e')
      as [Hfail|(j & admin & user & Hrun & _)]; [done|].
    exfalso. destruct Hrun as [_ _ _ Hr].
    apply find_lookup in Hr as [Hj Hacc].
    apply list_elem_of_lookup_2, read_users_sub in Hj.
    apply (Hgone user Hj). congruence.
Qed.

Lemma deleted_cannot_receive_witness :
  let st' := (deleteUser Sample.with_alice "user-0001" Sample.env_ok).2 in
  reachable Sample.with_alice
  ∧ success (deleteUser Sample.with_alice "user-0001" Sample.env_ok).1 = true
  ∧ (∀ rq e', SendReq.recipientAccountNumber rq = "1234567890" →
       success (send st' rq e').1 = false ∧ (send st' rq e').2 = st')
  ∧ (∀ rq e', FundReq.accountNumber rq = "1234567890" →
       success (fund st' rq e').1 = false ∧ (fund st' rq e').2 = st').
Proof.
  intros st'.
  assert (Hreach : reachable Sample.with_alice) by reach_with_alice.
  split_and!; [exact Hreach|vm_compute; reflexivity|..];
    apply (deleted_cannot_receive Sample.with_alice "user-0001" Sample.env_ok
             (deleteUser Sample.with_alice "user-0001" Sample.env_ok).1 st'
             1%nat Sample.alice Hreach); vm_compute; reflexivity.
Defined.

(** ** Looking accounts up *)




